(** * Environmental Policy Impact Monitor: a model of [app.py]

    The development follows the source file section by section:

    - [Py]: the Python text operations the script applies to column labels
      and cells ([strip], [lower], [in], [isdigit], [int], [replace],
      slicing, [join]);
    - [Frame]: the fragment of pandas data frames the script relies on
      (labelled columns, rows of cells, [concat], [rename], [head],
      boolean-mask selection);
    - the table-scraping adapter and normaliser [extract_policies_cpd];
    - the emissions reshaper, the policy overlay and the impact summary of
      the first tab;
    - the JSON adapter [extract_environment_policies].

    Conventions.  Text is a [string] of bytes, the UTF-8 encoding of the
    Python text; [Py.chars] cuts it into its characters, and trimming and
    slicing work on characters.  Which characters count as digits, and
    which texts [int] reads, is the interpreter's character database: the
    reshaper of module [Full] takes both as arguments, and the plain
    [year_cols], [long_df], [plot_df] and [reshape] are its instance for
    ASCII labels.  Numbers held in frames are exact rationals ([Q]); the
    not-a-number value of pandas is [None] (for a computed number) or
    [VNull] (for a cell), and non-finite floats and rounding errors are
    outside the model.  The remote sources and the cell parser of pandas
    are arguments of the functions that use them, so every statement holds
    whatever they answer. *)

From Stdlib Require Import List String Ascii Bool Arith ZArith QArith Lia.
From Stdlib Require Import Permutation Sorted DecimalString Qround.
From Stdlib Require Import Lqa.
Import ListNotations.

Set Warnings "-register-all".
Close Scope Q_scope.
Open Scope string_scope.
Open Scope list_scope.

(* ================================================================== *)
(** * Exceptions *)

(** The exceptions that escape the modelled code.  A function that can
    raise returns an [outcome]. *)
Inductive exn : Type :=
| KeyError
| AttributeError
| TypeError
| OverflowError
| ValueError
| IndexError.

Inductive outcome (A : Type) : Type :=
| Returned (a : A)
| Raised (e : exn).

Arguments Returned {A} a.
Arguments Raised {A} e.

Definition bind {A B : Type} (m : outcome A) (k : A -> outcome B) : outcome B :=
  match m with
  | Returned a => k a
  | Raised e => Raised e
  end.

Notation "x <- m ;; k" := (bind m (fun x => k))
  (at level 61, m at next level, right associativity).

(** [traverse f l] runs [f] on the items of [l] from left to right and stops
    at the first one that raises: a [for] loop (or comprehension) whose body
    is [f]. *)
Fixpoint traverse {A B : Type} (f : A -> outcome B) (l : list A) : outcome (list B) :=
  match l with
  | [] => Returned []
  | a :: l' => b <- f a ;; bs <- traverse f l' ;; Returned (b :: bs)
  end.

(* ================================================================== *)
(** * Python text operations *)

Module Py.

Definition is_digit (c : ascii) : bool :=
  let n := nat_of_ascii c in ((48 <=? n) && (n <=? 57))%nat.

Definition lower_char (c : ascii) : ascii :=
  let n := nat_of_ascii c in
  if ((65 <=? n) && (n <=? 90))%nat then ascii_of_nat (n + 32) else c.

(** [s.lower()] *)
Fixpoint lower (s : string) : string :=
  match s with
  | EmptyString => EmptyString
  | String c s' => String (lower_char c) (lower s')
  end.

(** A byte that continues a character begun by an earlier byte. *)
Definition continuation (c : ascii) : bool :=
  let n := nat_of_ascii c in ((128 <=? n) && (n <=? 191))%nat.

(** The characters of a text, each with the bytes that encode it: a byte
    followed by the continuation bytes after it. *)
Fixpoint chars (s : string) : list string :=
  match s with
  | EmptyString => []
  | String c s' =>
      match chars s' with
      | String d ch :: rest =>
          if continuation d then String c (String d ch) :: rest
          else String c EmptyString :: String d ch :: rest
      | rest => String c EmptyString :: rest
      end
  end.

(** [ch.isspace()] for one character: the ASCII white space and the
    characters U+0085, U+00A0, U+1680, U+2000 to U+200A, U+2028, U+2029,
    U+202F, U+205F and U+3000. *)
Definition space_char (ch : string) : bool :=
  match map nat_of_ascii (list_ascii_of_string ch) with
  | [n] => (((9 <=? n) && (n <=? 13)) || ((28 <=? n) && (n <=? 32)))%nat
  | [194; n] => ((n =? 133) || (n =? 160))%nat
  | [225; 154; 128] => true
  | [226; 128; n] =>
      (((128 <=? n) && (n <=? 138)) || (n =? 168) || (n =? 169) || (n =? 175))%nat
  | [226; 129; 159] => true
  | [227; 128; 128] => true
  | _ => false
  end%nat.

Fixpoint drop_spaces (l : list string) : list string :=
  match l with
  | [] => []
  | ch :: l' => if space_char ch then drop_spaces l' else l
  end.

Definition lstrip (s : string) : string :=
  String.concat "" (drop_spaces (chars s)).

Definition rstrip (s : string) : string :=
  String.concat "" (rev (drop_spaces (rev (chars s)))).

(** [s.strip()] *)
Definition strip (s : string) : string := rstrip (lstrip s).

(** [k in s] on two texts: [k] occurs in [s] as a contiguous run. *)
Fixpoint contains (k s : string) : bool :=
  String.prefix k s ||
  match s with
  | EmptyString => false
  | String _ s' => contains k s'
  end.

(** [s[:n]]: the first [n] characters. *)
Definition take (n : nat) (s : string) : string :=
  String.concat "" (firstn n (chars s)).

Fixpoint all_digits (s : string) : bool :=
  match s with
  | EmptyString => true
  | String c s' => is_digit c && all_digits s'
  end.

(** [s.isdigit()] on a text of ASCII characters: at least one character,
    all of them among 0 to 9. *)
Definition isdigit (s : string) : bool :=
  match s with
  | EmptyString => false
  | _ => all_digits s
  end.

Fixpoint int_from (acc : Z) (s : string) : Z :=
  match s with
  | EmptyString => acc
  | String c s' => int_from (10 * acc + (Z.of_nat (nat_of_ascii c) - 48)) s'
  end.

(** [int(s)] on a text of ASCII digits. *)
Definition int (s : string) : Z := int_from 0 s.

(** [s.replace(old, new)] for a non-empty [old]: occurrences are replaced
    from the left and do not overlap; [skip] counts the characters of a
    match still to be passed over. *)
Fixpoint replace_from (old new : string) (skip : nat) (s : string) : string :=
  match s with
  | EmptyString => EmptyString
  | String c s' =>
      match skip with
      | S k => replace_from old new k s'
      | O =>
          if String.prefix old s
          then new ++ replace_from old new (String.length old - 1) s'
          else String c (replace_from old new 0 s')
      end
  end.

Definition replace (old new s : string) : string := replace_from old new 0 s.

(** [sep.join(l)] *)
Definition join (sep : string) (l : list string) : string := String.concat sep l.

End Py.

(* ================================================================== *)
(** * Data frames *)

(** A cell of a frame: missing, a number, or text. *)
Inductive value : Type :=
| VNull
| VNum (q : Q)
| VStr (s : string).

(** A frame is its column labels in order and its rows in order, each row
    holding one cell per column.  Frames read from a source ([read_html],
    [read_csv]) have pairwise distinct labels; selecting a column by label
    takes the (first) column with that label. *)
Record DataFrame : Type := mkDF {
  columns : list string;
  rows : list (list value)
}.

Module Frame.

(** [pd.DataFrame()] *)
Definition empty_frame : DataFrame := mkDF [] [].

(** [df.empty]: no column or no row. *)
Definition empty (df : DataFrame) : bool :=
  match columns df, rows df with
  | [], _ => true
  | _, [] => true
  | _, _ => false
  end.

(** Whether a label is among [cols]: [c in df.columns]. *)
Definition has_column (c : string) (cols : list string) : bool :=
  existsb (String.eqb c) cols.

Fixpoint position (c : string) (cols : list string) : option nat :=
  match cols with
  | [] => None
  | c' :: cols' =>
      if String.eqb c c' then Some O
      else option_map S (position c cols')
  end.

(** The cell of row [r] under label [c]; a row of a frame that lacks the
    label holds nothing there. *)
Definition cell (cols : list string) (r : list value) (c : string) : value :=
  match position c cols with
  | Some i => nth i r VNull
  | None => VNull
  end.

(** Labels in order of first appearance, each kept once. *)
Fixpoint dedup_from (seen : list string) (l : list string) : list string :=
  match l with
  | [] => []
  | c :: l' =>
      if has_column c seen then dedup_from seen l'
      else c :: dedup_from (c :: seen) l'
  end.

Definition union_columns (dfs : list DataFrame) : list string :=
  dedup_from [] (flat_map columns dfs).

Definition realign (cols : list string) (df : DataFrame) : list (list value) :=
  map (fun r => map (cell (columns df) r) cols) (rows df).

(** [pd.concat(dfs, ignore_index=True)]: the rows of all frames under the
    union of their labels, a cell missing where a frame lacks the label. *)
Definition concat (dfs : list DataFrame) : DataFrame :=
  let cols := union_columns dfs in
  mkDF cols (flat_map (realign cols) dfs).

(** Write [f] of the old cell into position [i] of a row. *)
Fixpoint update_nth (i : nat) (f : value -> value) (r : list value) : list value :=
  match r, i with
  | [], _ => []
  | v :: r', O => f v :: r'
  | v :: r', S i' => v :: update_nth i' f r'
  end.

(** [df[c] = df[c].map(f)] for a label [c] borne by one column. *)
Definition map_column (c : string) (f : value -> value) (df : DataFrame) : DataFrame :=
  match position c (columns df) with
  | Some i => mkDF (columns df) (map (update_nth i f) (rows df))
  | None => df
  end.

(** [df.rename(columns=m)] with [m] given as a function on labels. *)
Definition rename (m : string -> string) (df : DataFrame) : DataFrame :=
  mkDF (map m (columns df)) (rows df).

(** [df[mask]] where the mask is computed row by row. *)
Definition select (p : list value -> bool) (df : DataFrame) : DataFrame :=
  mkDF (columns df) (filter p (rows df)).

(** [df.head(n)] *)
Definition head (n : nat) (df : DataFrame) : DataFrame :=
  mkDF (columns df) (firstn n (rows df)).

(** [cell == text], as pandas evaluates it on one cell. *)
Definition eq_str (v : value) (s : string) : bool :=
  match v with
  | VStr s' => String.eqb s' s
  | _ => false
  end.

(** [cell == n] for an integer [n]. *)
Definition eq_int (v : value) (n : Z) : bool :=
  match v with
  | VNum q => Qeq_bool q (inject_Z n)
  | _ => false
  end.

Definition isna (v : value) : bool :=
  match v with
  | VNull => true
  | _ => false
  end.

End Frame.

(** [range(n)] and [range(1, n + 1)] *)
Definition range (n : Z) : list Z := map Z.of_nat (seq 0 (Z.to_nat n)).
Definition range1 (n : Z) : list Z := map Z.of_nat (seq 1 (Z.to_nat n)).

(* ================================================================== *)
(** * The table-scraping adapter and the normaliser
      ([extract_policies_cpd], lines 28-63) *)

Section Cpd.

(** [read_html offset] is [pd.read_html(url)[0]] for the page address
    with that [offset]: the first table of the page, or [None] when the
    call raises (network error, no table).  One call of the adapter asks
    for each address at most once. *)
Variable read_html : Z -> option DataFrame.

(** [to_numeric_str s] is what [pd.to_numeric(..., errors="coerce")] makes
    of the text [s]: a number, or [None] (not-a-number) when [s] does not
    parse. *)
Variable to_numeric_str : string -> option Q.

(** [repr_num q] is the text [astype(str)] gives a numeric cell. *)
Variable repr_num : Q -> string.

(** The page loop (lines 29-37).  [all_dfs] accumulates the tables read;
    [asked] records the offsets requested, in order. *)
Fixpoint harvest_loop (pages : list Z) (all_dfs : list DataFrame) (asked : list Z)
  : list DataFrame * list Z :=
  match pages with
  | [] => (all_dfs, asked)
  | page :: pages' =>
      let offset := (page * 50)%Z in
      match read_html offset with
      | Some df => harvest_loop pages' (all_dfs ++ [df]) (asked ++ [offset])
      | None => (all_dfs, asked ++ [offset])
      end
  end.

Definition harvest (max_pages : Z) : list DataFrame * list Z :=
  harvest_loop (range max_pages) [] [].

Definition all_dfs (max_pages : Z) : list DataFrame := fst (harvest max_pages).

(** The words that make a column label year-like (line 48). *)
Definition keywords : list string := ["year"; "start"; "date"; "adopt"].

(** [any(k in col.lower() for k in keywords)] *)
Definition year_like (col : string) : bool :=
  existsb (fun k => Py.contains k (Py.lower col)) keywords.

(** The detection loop (lines 46-50): the first year-like label. *)
Definition year_col (cols : list string) : option string := find year_like cols.

(** [cell.astype(str)] *)
Definition astype_str (v : value) : string :=
  match v with
  | VStr s => s
  | VNum q => repr_num q
  | VNull => "nan"
  end.

(** Lines 55-58 on one cell: the leading four characters of the cell's
    text, parsed leniently. *)
Definition leading_year (v : value) : value :=
  match to_numeric_str (Py.take 4 (astype_str v)) with
  | Some q => VNum q
  | None => VNull
  end.

(** The renaming of lines 60-63. *)
Definition rename_label (yc : string) (c : string) : string :=
  if String.eqb c yc then "implementation_year"
  else if String.eqb c "Policy" then "policy_name"
  else c.

(** [pd.concat(all_dfs, ignore_index=True)] with trimmed labels
    (lines 42-43). *)
Definition cpd_df (dfs : list DataFrame) : DataFrame :=
  let df := Frame.concat dfs in
  mkDF (map Py.strip (columns df)) (rows df).

(** Lines 39-63.  When trimming leaves the detected label on two columns,
    [cpd_df[year_col]] is a frame, which has no [.str]: the call raises. *)
Definition normalize (dfs : list DataFrame) : outcome DataFrame :=
  match dfs with
  | [] => Returned Frame.empty_frame
  | _ =>
      let df := cpd_df dfs in
      match year_col (columns df) with
      | None => Returned Frame.empty_frame
      | Some yc =>
          if (count_occ string_dec (columns df) yc =? 1)%nat
          then Returned (Frame.rename (rename_label yc)
                           (Frame.map_column yc leading_year df))
          else Raised AttributeError
      end
  end.

Definition extract_policies_cpd (max_pages : Z) : outcome DataFrame :=
  normalize (all_dfs max_pages).

End Cpd.

(** A cell parser for running the model: texts of decimal digits parse to
    the integer they write, as they do in pandas; any other text is taken
    not to parse. *)
Definition decimal_cell (s : string) : option Q :=
  if Py.isdigit s then Some (inject_Z (Py.int s)) else None.

(** Text of an integer-valued number, for running the model. *)
Definition decimal_repr (q : Q) : string :=
  NilEmpty.string_of_int (Z.to_int (Qnum q / Z.pos (Qden q))).


(* ================================================================== *)
(** * Tab 1: the emissions reshaper (lines 75-111) *)

(** The five identifier columns kept by the unpivot. *)
Definition id_vars : list string := ["ISO"; "Country"; "Sector"; "Gas"; "Unit"].

Record Ids : Type := mkIds {
  ISO : value;
  Country : value;
  Sector : value;
  Gas : value;
  Unit : value
}.

(** A row of the long table after the casts of lines 107-108. *)
Record LongRow : Type := mkLong {
  ids : Ids;
  Year : Z;
  Emissions : option Q
}.

(** The eight bytes the script replaces by ["2"] in column labels
    (line 76): a subscript two read in the wrong encoding. *)
Definition garbled_two : string :=
  string_of_list_ascii
    (map ascii_of_nat [195; 162; 226; 128; 154; 226; 128; 154]%nat).

Section Reshaper.

Variable to_numeric_str : string -> option Q.

(** Line 76. *)
Definition repair_columns (raw : DataFrame) : DataFrame :=
  mkDF (map (Py.replace garbled_two "2") (columns raw)) (rows raw).

(** Line 77. *)
Definition year_cols (df : DataFrame) : list string :=
  filter Py.isdigit (columns df).

(** Line 98; [df["Country"]] raises when the column is absent. *)
Definition country_df (df : DataFrame) (country : string) : outcome DataFrame :=
  if Frame.has_column "Country" (columns df)
  then Returned (Frame.select
                   (fun r => Frame.eq_str (Frame.cell (columns df) r "Country") country) df)
  else Raised KeyError.

Definition ids_of (cols : list string) (r : list value) : Ids :=
  mkIds (Frame.cell cols r "ISO") (Frame.cell cols r "Country")
        (Frame.cell cols r "Sector") (Frame.cell cols r "Gas")
        (Frame.cell cols r "Unit").

(** Lines 100-105: [melt] lists, for each value column in turn, every row
    with its identifiers, the column's label and the row's cell there. *)
Definition melt (df : DataFrame) (value_vars : list string)
  : outcome (list (Ids * string * value)) :=
  if forallb (fun c => Frame.has_column c (columns df)) id_vars
  then Returned
         (flat_map
            (fun y => map (fun r => (ids_of (columns df) r, y, Frame.cell (columns df) r y))
                          (rows df))
            value_vars)
  else Raised KeyError.

(** [pd.to_numeric(cell, errors="coerce")] *)
Definition to_numeric (v : value) : option Q :=
  match v with
  | VNum q => Some q
  | VStr s => to_numeric_str s
  | VNull => None
  end.

(** Lines 107-108 on one melted row. *)
Definition cast (m : Ids * string * value) : LongRow :=
  let '(i, y, v) := m in mkLong i (Py.int y) (to_numeric v).

Definition has_na (r : LongRow) : bool :=
  Frame.isna (ISO (ids r)) || Frame.isna (Country (ids r)) ||
  Frame.isna (Sector (ids r)) || Frame.isna (Gas (ids r)) ||
  Frame.isna (Unit (ids r)) ||
  match Emissions r with None => true | Some _ => false end.

(** Line 109: [dropna] removes every row with a missing field. *)
Definition dropna (l : list LongRow) : list LongRow :=
  filter (fun r => negb (has_na r)) l.

(** Line 107 raises when a year label exceeds the 64-bit integers of the
    column it is cast to. *)
Definition int64_max : Z := 9223372036854775807.

Definition fits_int64 (m : Ids * string * value) : bool :=
  let '(_, y, _) := m in (Py.int y <=? int64_max)%Z.

Definition long_df (df : DataFrame) (country : string) : outcome (list LongRow) :=
  cdf <- country_df df country ;;
  m <- melt cdf (year_cols df) ;;
  if forallb fits_int64 m
  then Returned (dropna (map cast m))
  else Raised OverflowError.

Fixpoint insert_by_year (r : LongRow) (l : list LongRow) : list LongRow :=
  match l with
  | [] => [r]
  | x :: l' => if (Year r <=? Year x)%Z then r :: l else x :: insert_by_year r l'
  end.

(** [sort_values("Year")]: ascending by year.  pandas leaves the order
    among rows of one year open; the model keeps them in table order. *)
Definition sort_values (l : list LongRow) : list LongRow :=
  fold_right insert_by_year [] l.

(** Line 111. *)
Definition plot_df (df : DataFrame) (country sector : string) : outcome (list LongRow) :=
  l <- long_df df country ;;
  Returned (sort_values (filter (fun r => Frame.eq_str (Sector (ids r)) sector) l)).

(** The reshaper from the table as loaded. *)
Definition reshape (raw : DataFrame) (country sector : string) : outcome (list LongRow) :=
  plot_df (repair_columns raw) country sector.

End Reshaper.

(* ================================================================== *)
(** * Tab 1: the policy overlay (lines 122-133) *)

Section Overlay.

(** [country_contains country cell] is
    [str.contains(country, case=False, na=False)] on one cell of a text
    column, for a country name that is a valid pattern; line 130 on a
    column that is not text, or on a "Country" label borne by several
    columns, raises and is outside the model. *)
Variable country_contains : string -> value -> bool.

(** Line 125. *)
Definition filter_year (policy_df : DataFrame) (policy_year : Z) : DataFrame :=
  Frame.select
    (fun r => Frame.eq_int (Frame.cell (columns policy_df) r "implementation_year") policy_year)
    policy_df.

(** Lines 128-131. *)
Definition filter_country (df : DataFrame) (country : string) : DataFrame :=
  if Frame.has_column "Country" (columns df)
  then Frame.select (fun r => country_contains country (Frame.cell (columns df) r "Country")) df
  else df.

(** Lines 124-133: [None] when the guard of line 124 skips the block;
    selecting the year column raises when the frame has none. *)
Definition policy_year_df (policy_df : DataFrame) (policy_year : Z) (country : string)
  : outcome (option DataFrame) :=
  if Frame.empty policy_df then Returned None
  else if Frame.has_column "implementation_year" (columns policy_df)
  then Returned (Some (Frame.head 5 (filter_country (filter_year policy_df policy_year) country)))
  else Raised KeyError.

End Overlay.

(* ================================================================== *)
(** * Tab 1: the impact summary (lines 161-173) *)

(** Float arithmetic with not-a-number as [None]. *)
Definition lift2 (f : Q -> Q -> Q) (x y : option Q) : option Q :=
  match x, y with
  | Some a, Some b => Some (f a b)
  | _, _ => None
  end.

Definition present (s : list (option Q)) : list Q :=
  flat_map (fun x => match x with Some q => [q] | None => [] end) s.

Definition total (l : list Q) : Q := fold_left Qplus l 0%Q.

(** [Series.mean()]: missing values are skipped; the mean of no value is
    not-a-number. *)
Definition mean (s : list (option Q)) : option Q :=
  match present s with
  | [] => None
  | l => Some (total l / inject_Z (Z.of_nat (List.length l)))%Q
  end.

(** Lines 161-162. *)
Definition before (plot : list LongRow) (policy_year : Z) : option Q :=
  mean (map Emissions (filter (fun r => (Year r <? policy_year)%Z) plot)).

Definition after (plot : list LongRow) (policy_year : Z) : option Q :=
  mean (map Emissions (filter (fun r => (Year r >=? policy_year)%Z) plot)).

(** [x > 0]; a comparison with not-a-number is false. *)
Definition positive (x : option Q) : bool :=
  match x with
  | Some q => negb (Qle_bool q 0)
  | None => false
  end.

(** [((after - before) / before) * 100] *)
Definition percent_change (b a : option Q) : option Q :=
  lift2 Qmult (lift2 Qdiv (lift2 Qminus a b) b) (Some 100%Q).

(** Nearest integer, ties to the even one. *)
Definition rint (q : Q) : Z :=
  let f := Qfloor q in
  match ((q - inject_Z f) ?= 1 # 2)%Q with
  | Lt => f
  | Gt => (f + 1)%Z
  | Eq => if Z.even f then f else (f + 1)%Z
  end.

(** [round(x, 2)]; not-a-number stays so. *)
Definition round2 (x : option Q) : option Q :=
  match x with
  | Some q => Some (inject_Z (rint (q * 100)) / 100)%Q
  | None => None
  end.

(** What a metric tile shows: a number or a text. *)
Inductive metric : Type :=
| Number (x : option Q)
| Text (s : string).

Record ImpactSummary : Type := mkSummary {
  avg_before : metric;
  avg_after : metric;
  change : metric
}.

(** Lines 167-173. *)
Definition impact_summary (plot : list LongRow) (policy_year : Z) : ImpactSummary :=
  let b := before plot policy_year in
  let a := after plot policy_year in
  mkSummary (Number (round2 b)) (Number (round2 a))
            (if positive b then Number (round2 (percent_change b a)) else Text "N/A").

(* ================================================================== *)
(** * The JSON adapter ([extract_environment_policies], lines 182-223) *)

(** A decoded JSON body as Python holds it.  A dictionary is the list of
    its entries, each key once. *)
Inductive pyval : Type :=
| PNone
| PBool (b : bool)
| PInt (z : Z)
| PFloat (q : Q)
| PStr (s : string)
| PList (l : list pyval)
| PDict (d : list (string * pyval)).

(** One row of the returned table. *)
Record PolicyRecord : Type := mkRecord {
  policy_name : pyval;
  policy_type : pyval;
  implementation_year : Z;
  agency : string;
  source : string;
  source_url : pyval
}.

Module Dict.

Fixpoint lookup (k : string) (d : list (string * pyval)) : option pyval :=
  match d with
  | [] => None
  | (k', v) :: d' => if String.eqb k k' then Some v else lookup k d'
  end.

(** [v.get(k, default)]: only a dictionary has [get]. *)
Definition get (v : pyval) (k : string) (default : pyval) : outcome pyval :=
  match v with
  | PDict d =>
      Returned (match lookup k d with Some x => x | None => default end)
  | _ => Raised AttributeError
  end.

(** The truth value Python gives [v] in [if not v]. *)
Definition truthy (v : pyval) : bool :=
  match v with
  | PNone => false
  | PBool b => b
  | PInt z => negb (z =? 0)%Z
  | PFloat q => negb (Qeq_bool q 0)
  | PStr s => negb (String.eqb s "")
  | PList l => match l with [] => false | _ => true end
  | PDict d => match d with [] => false | _ => true end
  end.

(** The items [for x in v] visits: the elements of a list, the keys of a
    dictionary, the characters of a text; anything else is not iterable. *)
Definition iter (v : pyval) : outcome (list pyval) :=
  match v with
  | PList l => Returned l
  | PDict d => Returned (map (fun kv => PStr (fst kv)) d)
  | PStr s => Returned (map PStr (Py.chars s))
  | _ => Raised TypeError
  end.

(** [sep.join(l)]: every item must be text. *)
Definition join (sep : string) (l : list pyval) : outcome string :=
  texts <- traverse (fun v => match v with
                              | PStr s => Returned s
                              | _ => Raised TypeError
                              end) l ;;
  Returned (Py.join sep texts).

End Dict.

Section Registry.

(** [get_json year page] is the decoded body of the request for that page
    of that year, or [None] when [requests.get], [raise_for_status] or
    [response.json()] raises. *)
Variable get_json : Z -> Z -> option pyval.

(** Lines 209-212: the names of the entries that are dictionaries with a
    ["name"] key. *)
Definition agency_names (agencies : pyval) : outcome (list pyval) :=
  entries <- Dict.iter agencies ;;
  Returned
    (flat_map
       (fun agency =>
          match agency with
          | PDict d =>
              match Dict.lookup "name" d with
              | Some n => [n]
              | None => []
              end
          | _ => []
          end)
       entries).

(** Line 218. *)
Definition agency_field (names : list pyval) : outcome string :=
  match names with
  | [] => Returned "N/A"
  | _ => Dict.join ", " names
  end.

(** Lines 208-221: the record built from one item. *)
Definition record_of (year : Z) (item : pyval) : outcome PolicyRecord :=
  agencies <- Dict.get item "agencies" (PList []) ;;
  names <- agency_names agencies ;;
  title <- Dict.get item "title" PNone ;;
  type <- Dict.get item "type" PNone ;;
  ag <- agency_field names ;;
  url <- Dict.get item "html_url" PNone ;;
  Returned (mkRecord title type year ag "US Federal Register" url).

(** Lines 203-221 on one decoded body: [None] stands for the [break] of
    line 205, [Some recs] for the records the page adds. *)
Definition page_records (year : Z) (data : pyval) : outcome (option (list PolicyRecord)) :=
  results <- Dict.get data "results" (PList []) ;;
  if Dict.truthy results
  then items <- Dict.iter results ;;
       recs <- traverse (record_of year) items ;;
       Returned (Some recs)
  else Returned None.

(** The page loop (lines 187-221), with the pages requested so far. *)
Fixpoint registry_loop (year : Z) (pages : list Z)
         (all_records : list PolicyRecord) (asked : list Z)
  : outcome (list PolicyRecord) * list Z :=
  match pages with
  | [] => (Returned all_records, asked)
  | page :: pages' =>
      match get_json year page with
      | None => (Returned all_records, asked ++ [page])
      | Some data =>
          match page_records year data with
          | Raised e => (Raised e, asked ++ [page])
          | Returned None => (Returned all_records, asked ++ [page])
          | Returned (Some recs) =>
              registry_loop year pages' (all_records ++ recs) (asked ++ [page])
          end
      end
  end.

Definition registry_run (year max_pages : Z) : outcome (list PolicyRecord) * list Z :=
  registry_loop year (range1 max_pages) [] [].

(** The rows of the returned table, in order. *)
Definition extract_environment_policies (year max_pages : Z) : outcome (list PolicyRecord) :=
  fst (registry_run year max_pages).

End Registry.

(* ================================================================== *)
(** * Notions used to state the properties *)







(** An agencies entry that is a dictionary bearing a ["name"] key, and the
    name it bears. *)
Definition name_bearing (entry : pyval) : bool :=
  match entry with
  | PDict d => match Dict.lookup "name" d with Some _ => true | None => false end
  | _ => false
  end.

Definition name_of (entry : pyval) : pyval :=
  match entry with
  | PDict d => match Dict.lookup "name" d with Some n => n | None => PNone end
  | _ => PNone
  end.

Definition is_text (v : pyval) : bool :=
  match v with
  | PStr _ => true
  | _ => false
  end.

Definition text_of (v : pyval) : string :=
  match v with
  | PStr s => s
  | _ => ""
  end.

(** [d.get(k)]: the entry under [k], or [None]. *)
Definition entry_or_none (k : string) (d : list (string * pyval)) : pyval :=
  match Dict.lookup k d with
  | Some v => v
  | None => PNone
  end.

(** The body shapes on which the JSON adapter runs to the end: the body is a
    dictionary; its ["results"], when present and not falsy, is a list of
    dictionaries; the ["agencies"] of an item, when present, is a list, and
    every name borne by one of its entries is text. *)
Definition item_shaped (item : pyval) : bool :=
  match item with
  | PDict d =>
      match Dict.lookup "agencies" d with
      | None => true
      | Some (PList l) => forallb (fun e => negb (name_bearing e) || is_text (name_of e)) l
      | Some _ => false
      end
  | _ => false
  end.

Definition body_shaped (data : pyval) : bool :=
  match data with
  | PDict body =>
      match Dict.lookup "results" body with
      | None => true
      | Some results =>
          negb (Dict.truthy results) ||
          match results with
          | PList items => forallb item_shaped items
          | _ => false
          end
      end
  | _ => false
  end.

(** A page of the JSON source with zero result records: no ["results"]
    entry, or one that Python reads as false (the empty list). *)
Definition zero_results (data : pyval) : Prop :=
  exists body,
    data = PDict body /\
    match Dict.lookup "results" body with
    | None => True
    | Some results => Dict.truthy results = false
    end.

(** The origin of a record: an item of the results of a requested page. *)
Definition from_page (get_json : Z -> Z -> option pyval)
           (year : Z) (pages : list Z) (r : PolicyRecord) : Prop :=
  exists page body results item,
    In page pages /\
    get_json year page = Some (PDict body) /\
    Dict.lookup "results" body = Some (PList results) /\
    In (PDict item) results /\
    record_of year (PDict item) = Returned r.

(** No field of a long row is missing (its year is an integer, never
    missing). *)
Definition fields_present (p : LongRow) : Prop :=
  ISO (ids p) <> VNull /\ Country (ids p) <> VNull /\ Sector (ids p) <> VNull /\
  Gas (ids p) <> VNull /\ Unit (ids p) <> VNull /\ Emissions p <> None.


(** The long series as the specification words it: one point for every year
    column and every row of the country and sector whose five identifiers
    are present and whose cell under that column parses, the year column
    outermost. *)
Section SeriesSpec.

Variable to_numeric_str : string -> option Q.

Definition point_of (cols : list string) (country sector : string)
           (y : string) (r : list value) : list LongRow :=
  let i := ids_of cols r in
  match to_numeric to_numeric_str (Frame.cell cols r y) with
  | Some q =>
      if Frame.eq_str (Country i) country && Frame.eq_str (Sector i) sector &&
         negb (Frame.isna (ISO i)) && negb (Frame.isna (Gas i)) &&
         negb (Frame.isna (Unit i))
      then [mkLong i (Py.int y) (Some q)]
      else []
  | None => []
  end.

Definition series_spec (df : DataFrame) (country sector : string) : list LongRow :=
  flat_map (fun y => flat_map (point_of (columns df) country sector y) (rows df))
           (filter Py.isdigit (columns df)).

End SeriesSpec.

(* ------------------------------------------------------------------ *)
(** ** Sample inputs *)

(** A source that serves one table at offset 0 and fails afterwards. *)
Definition only_first (df : DataFrame) (offset : Z) : option DataFrame :=
  if (offset =? 0)%Z then Some df else None.

Definition netzero_page : DataFrame :=
  mkDF ["Policy"; "AdoptionDate"; "Region"]
       [[VStr "Net-Zero Act"; VStr "2020-05-01"; VStr "EU"]].

Definition undated_page : DataFrame :=
  mkDF ["Policy"; "Date"] [[VStr "Plan A"; VStr "TBD"]].

(** A policy table without any year-like column. *)
Definition regionless_page : DataFrame :=
  mkDF ["Policy"; "Region"] [[VStr "Net-Zero Act"; VStr "EU"]].

(** A policy table whose header cells are padded, one of them with a
    no-break space (U+00A0). *)
Definition no_break_space : string :=
  string_of_list_ascii (map ascii_of_nat [194; 160]%nat).

Definition padded_page : DataFrame :=
  mkDF [("Policy" ++ no_break_space)%string; " Start year"] [[VStr "Plan A"; VStr "2015"]].

(** A policy table without a "Policy" column. *)
Definition untitled_page : DataFrame :=
  mkDF ["Title"; "Start year"] [[VStr "Plan A"; VStr "2015"]].

Definition untitled_policies : DataFrame :=
  mkDF ["Title"; "implementation_year"] [[VStr "Plan A"; VNum (inject_Z 2015)]].


Definition ids_x : Ids :=
  mkIds (VStr "XXX") (VStr "X") (VStr "Energy") (VStr "CO2") (VStr "Mt").


(** The label "2011" written with the full-width digits U+FF12, U+FF10,
    U+FF11, U+FF11, and a wide table with such a year column. *)
Definition fullwidth_2011 : string :=
  string_of_list_ascii
    (map ascii_of_nat [239; 188; 146; 239; 188; 144; 239; 188; 145; 239; 188; 145]%nat).

Definition wide_fullwidth : DataFrame :=
  mkDF ["ISO"; "Country"; "Sector"; "Gas"; "Unit"; "2010"; fullwidth_2011; "Note"]
       [[VStr "XXX"; VStr "X"; VStr "Energy"; VStr "CO2"; VStr "Mt";
         VNum (inject_Z 100); VNum (inject_Z 120); VStr "estimate"]].

Definition series_fullwidth : list LongRow :=
  [mkLong ids_x 2010 (Some (inject_Z 100));
   mkLong ids_x 2011 (Some (inject_Z 120))].


(** The same row with its ISO code missing. *)
Definition wide_no_iso : DataFrame :=
  mkDF ["ISO"; "Country"; "Sector"; "Gas"; "Unit"; "2010"]
       [[VNull; VStr "X"; VStr "Energy"; VStr "CO2"; VStr "Mt"; VNum (inject_Z 100)]].

(** A normalised policy table: six policies of 2015 and one of 2014. *)
Definition policy_row (name : string) (year : Z) : list value :=
  [VStr name; VNum (inject_Z year)].

Definition seven_policies : DataFrame :=
  mkDF ["policy_name"; "implementation_year"]
       [policy_row "P1" 2015; policy_row "P2" 2014; policy_row "P3" 2015;
        policy_row "P4" 2015; policy_row "P5" 2015; policy_row "P6" 2015;
        policy_row "P7" 2015].

Definition any_country (country : string) (v : value) : bool := true.

(** A policy whose name, 44 characters long, has accented letters (an e
    with acute accent, two bytes each) among its first 35 characters. *)
Definition e_acute : string := string_of_list_ascii (map ascii_of_nat [195; 169]%nat).

Definition accented_name : string :=
  "Strat" ++ e_acute ++ "gie nationale bas-carbone r" ++ e_acute ++ "vis" ++ e_acute ++ "e 2020".

Definition accented_label : string :=
  "Strat" ++ e_acute ++ "gie nationale bas-carbone r" ++ e_acute ++ "v...".

Definition accented_policies : DataFrame :=
  mkDF ["policy_name"; "implementation_year"] [policy_row accented_name 2020].

Definition epa_item : pyval :=
  PDict [("title", PStr "Clean Air Rule");
         ("agencies", PList [PDict [("id", PInt 1)]; PDict [("name", PStr "EPA")]]);
         ("html_url", PStr "https://www.federalregister.gov/d/1")].

(** A source that serves [body] on page 1 and fails afterwards. *)
Definition one_page (body : pyval) (year page : Z) : option pyval :=
  if (page =? 1)%Z then Some body else None.

Definition epa_body : pyval := PDict [("results", PList [epa_item])].

Definition epa_record : PolicyRecord :=
  mkRecord (PStr "Clean Air Rule") PNone 2020 "EPA" "US Federal Register"
           (PStr "https://www.federalregister.gov/d/1").

Definition null_agencies_body : pyval :=
  PDict [("results", PList [PDict [("title", PStr "Rule"); ("agencies", PNone)]])].

(* ================================================================== *)
(** * The rest of the script *)

(** ** The year slider (lines 91-96) *)

(** [s < t] on two texts, as Python orders them: character by character,
    a proper prefix first. *)
Fixpoint str_lt (s t : string) : bool :=
  match s, t with
  | _, EmptyString => false
  | EmptyString, String _ _ => true
  | String c s', String d t' =>
      if (nat_of_ascii c <? nat_of_ascii d)%nat then true
      else if (nat_of_ascii d <? nat_of_ascii c)%nat then false
      else str_lt s' t'
  end.

Fixpoint min_from (m : string) (l : list string) : string :=
  match l with
  | [] => m
  | x :: l' => min_from (if str_lt x m then x else m) l'
  end.

Fixpoint max_from (m : string) (l : list string) : string :=
  match l with
  | [] => m
  | x :: l' => max_from (if str_lt m x then x else m) l'
  end.

(** [min(l)] and [max(l)] on a list of texts; [None] stands for the
    [ValueError] raised on an empty list. *)
Definition py_min (l : list string) : option string :=
  match l with
  | [] => None
  | x :: l' => Some (min_from x l')
  end.

Definition py_max (l : list string) : option string :=
  match l with
  | [] => None
  | x :: l' => Some (max_from x l')
  end.

(** ** The reshaper and the slider over the character database *)

Module Full.

Section Reshaper.

(** [isdigit c] is [c.isdigit()] and [int_of c] is [int(c)], [None] when
    it raises [ValueError], as the interpreter's character database has
    them: for instance a full-width "2010" is a digit text that reads as
    2010, and a superscript two is a digit text that [int] refuses. *)
Variable isdigit : string -> bool.
Variable int_of : string -> option Z.

Variable to_numeric_str : string -> option Q.

(** Line 77. *)
Definition year_cols (df : DataFrame) : list string :=
  filter isdigit (columns df).

(** Line 107 on one melted row: [astype(int)] reads the label with [int]
    and stores it in a 64-bit integer column (a digit text never reads as
    a negative number). *)
Definition cast_year (m : Ids * string * value) : outcome (Ids * Z * value) :=
  let '(i, y, v) := m in
  match int_of y with
  | None => Raised ValueError
  | Some n => if (n <=? int64_max)%Z then Returned (i, n, v) else Raised OverflowError
  end.

(** Line 108 on one row. *)
Definition cast_emissions (m : Ids * Z * value) : LongRow :=
  let '(i, n, v) := m in mkLong i n (to_numeric to_numeric_str v).

(** Lines 98-109. *)
Definition long_df (df : DataFrame) (country : string) : outcome (list LongRow) :=
  cdf <- country_df df country ;;
  m <- melt cdf (year_cols df) ;;
  typed <- traverse cast_year m ;;
  Returned (dropna (map cast_emissions typed)).

(** Line 111. *)
Definition plot_df (df : DataFrame) (country sector : string) : outcome (list LongRow) :=
  l <- long_df df country ;;
  Returned (sort_values (filter (fun r => Frame.eq_str (Sector (ids r)) sector) l)).

(** The reshaper from the table as loaded. *)
Definition reshape (raw : DataFrame) (country sector : string) : outcome (list LongRow) :=
  plot_df (repair_columns raw) country sector.

(** Lines 93-94: the bounds handed to the slider, [int(min(year_cols))]
    and [int(max(year_cols))]; [min] of no label and [int] of a label it
    cannot read raise [ValueError]. *)
Definition slider_bounds (df : DataFrame) : outcome (Z * Z) :=
  match py_min (year_cols df), py_max (year_cols df) with
  | Some lo, Some hi =>
      match int_of lo, int_of hi with
      | Some a, Some b => Returned (a, b)
      | _, _ => Raised ValueError
      end
  | _, _ => Raised ValueError
  end.

(** The long series as the specification words it, with the year read
    from the label by [int]. *)
Definition point_of (cols : list string) (country sector : string)
           (y : string) (r : list value) : list LongRow :=
  let i := ids_of cols r in
  match int_of y, to_numeric to_numeric_str (Frame.cell cols r y) with
  | Some n, Some q =>
      if Frame.eq_str (Country i) country && Frame.eq_str (Sector i) sector &&
         negb (Frame.isna (ISO i)) && negb (Frame.isna (Gas i)) &&
         negb (Frame.isna (Unit i))
      then [mkLong i n (Some q)]
      else []
  | _, _ => []
  end.

Definition series_spec (df : DataFrame) (country sector : string) : list LongRow :=
  flat_map (fun y => flat_map (point_of (columns df) country sector y) (rows df))
           (filter isdigit (columns df)).

End Reshaper.

End Full.

(** The reading of ASCII digit texts. *)
Definition ascii_int (s : string) : option Z := Some (Py.int s).


(** A small character database for running the model on sample tables:
    the ASCII digits, the full-width digits U+FF10 to U+FF19, which [int]
    reads like them, and the superscript two U+00B2, a digit that [int]
    refuses; every other character is taken for no digit.  [sample_int]
    is [int] on the texts [sample_isdigit] accepts. *)
Definition superscript_two : string :=
  string_of_list_ascii (map ascii_of_nat [194; 178]%nat).

Fixpoint digit_chars (l : list nat) : bool :=
  match l with
  | [] => true
  | 194 :: 178 :: l' => digit_chars l'
  | 239 :: 188 :: n :: l' => ((144 <=? n) && (n <=? 153))%nat && digit_chars l'
  | n :: l' => ((48 <=? n) && (n <=? 57))%nat && digit_chars l'
  end%nat.

Fixpoint wide_digits (acc : Z) (l : list nat) : option Z :=
  match l with
  | [] => Some acc
  | 239 :: 188 :: n :: l' =>
      if ((144 <=? n) && (n <=? 153))%nat
      then wide_digits (10 * acc + (Z.of_nat n - 144)) l'
      else None
  | n :: l' =>
      if ((48 <=? n) && (n <=? 57))%nat
      then wide_digits (10 * acc + (Z.of_nat n - 48)) l'
      else None
  end%nat.

Definition sample_isdigit (s : string) : bool :=
  match s with
  | EmptyString => false
  | _ => digit_chars (map nat_of_ascii (list_ascii_of_string s))
  end.

Definition sample_int (s : string) : option Z :=
  match s with
  | EmptyString => None
  | _ => wide_digits 0 (map nat_of_ascii (list_ascii_of_string s))
  end.

(** ** The policy markers (lines 135-149) and table (lines 175-180) *)

(** [row["implementation_year"] + 0.1] *)
Definition add_tenth (v : value) : outcome (option Q) :=
  match v with
  | VNum q => Returned (Some (q + (1 # 10))%Q)
  | VNull => Returned None
  | VStr _ => Raised TypeError
  end.

(** A frame none of whose cells is text: pandas then holds it as one block
    of numbers, and a row hands out numpy scalars rather than Python
    numbers. *)
Definition numeric_frame (df : DataFrame) : bool :=
  forallb (forallb (fun v => match v with VStr _ => false | _ => true end)) (rows df).

(** [row["policy_name"][:35] + "..."]; only text can be sliced: a Python
    number raises [TypeError], a numpy scalar [IndexError]. *)
Definition name_label (scalars : bool) (v : value) : outcome string :=
  match v with
  | VStr s => Returned (Py.take 35 s ++ "...")%string
  | _ => if scalars then Raised IndexError else Raised TypeError
  end.

(** One pass of the loop of lines 135-149: the position of the dotted
    line, the position of the text and the text. *)
Definition annotate (scalars : bool) (cols : list string) (r : list value)
  : outcome (value * option Q * string) :=
  if Frame.has_column "implementation_year" cols
  then
    let y := Frame.cell cols r "implementation_year" in
    x <- add_tenth y ;;
    if Frame.has_column "policy_name" cols
    then t <- name_label scalars (Frame.cell cols r "policy_name") ;; Returned (y, x, t)
    else Raised KeyError
  else Raised KeyError.

Section Markers.

Variable country_contains : string -> value -> bool.

(** Lines 124-149: the markers drawn on the chart. *)
Definition policy_markers (policy_df : DataFrame) (policy_year : Z) (country : string)
  : outcome (list (value * option Q * string)) :=
  shown <- policy_year_df country_contains policy_df policy_year country ;;
  match shown with
  | None => Returned []
  | Some d => traverse (annotate (numeric_frame policy_df) (columns d)) (rows d)
  end.

(** Lines 175-180: the two columns listed under the chart, [None] when the
    guard of line 175 skips the listing; selecting a column the frame lacks
    raises. *)
Definition policies_table (policy_df : DataFrame) (policy_year : Z) (country : string)
  : outcome (option (list (value * value))) :=
  shown <- policy_year_df country_contains policy_df policy_year country ;;
  match shown with
  | None => Returned None
  | Some d =>
      if Frame.empty d then Returned None
      else if Frame.has_column "policy_name" (columns d) &&
              Frame.has_column "implementation_year" (columns d)
      then Returned (Some (map (fun r => (Frame.cell (columns d) r "policy_name",
                                          Frame.cell (columns d) r "implementation_year"))
                               (rows d)))
      else Raised KeyError
  end.

End Markers.

(** ** Tab 2 (lines 235-243) *)

(** What the second tab reports after a harvest. *)
Inductive report : Type :=
| NoPolicies (year : Z)
| Found (n : nat) (year : Z).

(** Lines 237-242, with the default page limit of line 182. *)
Definition tab2_report (get_json : Z -> Z -> option pyval) (selected_year : Z)
  : outcome report :=
  recs <- extract_environment_policies get_json selected_year 3 ;;
  match recs with
  | [] => Returned (NoPolicies selected_year)
  | _ => Returned (Found (List.length recs) selected_year)
  end.

(** ** Notions used to state further properties *)

(** The items on which [record_of] returns: a dictionary whose "agencies",
    when present, can be iterated (a list, a dictionary or a text) and, when
    a list, has text under every "name" it bears. *)
Definition item_accepted (item : pyval) : bool :=
  match item with
  | PDict d =>
      match Dict.lookup "agencies" d with
      | None => true
      | Some (PList l) => forallb (fun e => negb (name_bearing e) || is_text (name_of e)) l
      | Some (PDict _) => true
      | Some (PStr _) => true
      | Some _ => false
      end
  | _ => false
  end.

(* ================================================================== *)
(** * Facts about the text operations *)

Example strip_label : Py.strip "  Start Year  " = "Start Year".
Proof. reflexivity. Qed.

Example strip_no_break_space :
  Py.strip (no_break_space ++ " Policy" ++ no_break_space)%string = "Policy".
Proof. reflexivity. Qed.

Example slice_characters :
  List.length (Py.chars accented_name) = 44%nat /\
  String.length accented_name = 47%nat /\
  (Py.take 35 accented_name ++ "...")%string = accented_label.
Proof. repeat split. Qed.

Example sample_digits :
  sample_isdigit "2010" = true /\ sample_int "2010" = Some 2010%Z /\
  sample_isdigit fullwidth_2011 = true /\ sample_int fullwidth_2011 = Some 2011%Z /\
  sample_isdigit superscript_two = true /\ sample_int superscript_two = None /\
  sample_isdigit "2010.1" = false /\ sample_isdigit "" = false.
Proof. repeat split. Qed.

Example year_like_labels :
  year_like "AdoptionDate" = true /\ year_like "Policy" = false /\
  year_like "Country" = false /\ year_like " YEAR" = true.
Proof. repeat split. Qed.

Example repair_label : Py.replace garbled_two "2" ("CO" ++ garbled_two ++ "e") = "CO2e".
Proof. reflexivity. Qed.

Example leading_four : Py.take 4 "2020-05-01" = "2020" /\ Py.take 4 "TBD" = "TBD".
Proof. split; reflexivity. Qed.

Example digit_labels :
  Py.isdigit "2010" = true /\ Py.isdigit "" = false /\ Py.isdigit "2010.1" = false /\
  Py.int "2010" = 2010%Z.
Proof. repeat split. Qed.







(* ================================================================== *)
(** * Facts about lists and frames *)



Lemma has_column_In (c : string) (cols : list string) :
  Frame.has_column c cols = true <-> In c cols.
Proof.
  unfold Frame.has_column. rewrite existsb_exists. split.
  - intros [x [Hin Heq]]. apply String.eqb_eq in Heq. now subst.
  - intros Hin. exists c. split; auto. apply String.eqb_refl.
Qed.

Lemma position_Some_lt (c : string) (cols : list string) (i : nat) :
  Frame.position c cols = Some i -> (i < List.length cols)%nat /\ nth_error cols i = Some c.
Proof.
  revert i; induction cols as [|c' cols IH]; intros i; simpl.
  - discriminate.
  - destruct (String.eqb c c') eqn:Heq.
    + intros H; inversion H; subst. apply String.eqb_eq in Heq. subst.
      split; [lia | reflexivity].
    + destruct (Frame.position c cols) as [j|]; simpl; [|discriminate].
      intros H; inversion H; subst. destruct (IH j eq_refl). split; [lia | assumption].
Qed.

Lemma position_In (c : string) (cols : list string) :
  In c cols -> exists i, Frame.position c cols = Some i.
Proof.
  induction cols as [|c' cols IH]; simpl; [tauto|].
  intros H. destruct (String.eqb c c') eqn:Heq; [now exists O|].
  destruct H as [H|H].
  - subst. rewrite String.eqb_refl in Heq. discriminate.
  - destruct (IH H) as [i Hi]. rewrite Hi. now exists (S i).
Qed.

(** Renaming moves no column: when no label before the first [yc] is mapped
    onto the new name, the new name is found where [yc] was. *)
Lemma position_map (m : string -> string) (yc : string) (cols : list string) (i : nat) :
  Frame.position yc cols = Some i ->
  (forall c, In c (firstn i cols) -> m c <> m yc) ->
  Frame.position (m yc) (map m cols) = Some i.
Proof.
  revert i; induction cols as [|c' cols IH]; intros i; simpl; [discriminate|].
  destruct (String.eqb yc c') eqn:Heq.
  - intros H _. inversion H; subst. apply String.eqb_eq in Heq. subst.
    now rewrite String.eqb_refl.
  - destruct (Frame.position yc cols) as [j|] eqn:Hj; simpl; [|discriminate].
    intros H Hpre. inversion H; subst. simpl in Hpre.
    destruct (String.eqb (m yc) (m c')) eqn:Hm.
    + apply String.eqb_eq in Hm. exfalso. apply (Hpre c'); auto.
    + rewrite (IH j eq_refl); auto.
Qed.

Lemma nth_update_nth (i : nat) (f : value -> value) (r : list value) :
  (i < List.length r)%nat ->
  nth i (Frame.update_nth i f r) VNull = f (nth i r VNull).
Proof.
  revert i; induction r as [|v r IH]; intros i Hi; simpl in *; [lia|].
  destruct i; simpl; [reflexivity | apply IH; lia].
Qed.

Lemma length_update_nth (i : nat) (f : value -> value) (r : list value) :
  List.length (Frame.update_nth i f r) = List.length r.
Proof.
  revert i; induction r as [|v r IH]; intros i; simpl; [now destruct i|].
  destruct i; simpl; auto.
Qed.

(** Every row of a concatenation is as wide as its header. *)
Lemma concat_rows_width (dfs : list DataFrame) (r : list value) :
  In r (rows (Frame.concat dfs)) ->
  List.length r = List.length (columns (Frame.concat dfs)).
Proof.
  unfold Frame.concat; simpl. rewrite in_flat_map.
  intros [df [_ Hr]]. unfold Frame.realign in Hr. rewrite in_map_iff in Hr.
  destruct Hr as [r0 [Hr _]]. subst. now rewrite length_map.
Qed.

Lemma Forall2_map_self {A B : Type} (R : A -> B -> Prop) (g : A -> B) (l : list A) :
  (forall a, In a l -> R a (g a)) -> Forall2 R l (map g l).
Proof.
  induction l as [|a l IH]; simpl; intros H; constructor; auto.
Qed.

(* ================================================================== *)
(** * The normaliser *)

(** The columns before the detected one are neither year-like nor named
    like it. *)
Lemma before_year_col (cols : list string) (yc : string) (i : nat) :
  year_col cols = Some yc ->
  Frame.position yc cols = Some i ->
  forall c, In c (firstn i cols) -> year_like c = false /\ c <> yc.
Proof.
  unfold year_col. revert i; induction cols as [|c' cols IH]; intros i; simpl.
  - discriminate.
  - destruct (year_like c') eqn:Hc'.
    + intros H. inversion H; subst. rewrite String.eqb_refl.
      intros Hi; inversion Hi; subst. simpl. tauto.
    + intros Hfind. pose proof (find_some _ _ Hfind) as [_ Hyc].
      destruct (String.eqb yc c') eqn:Heq.
      * apply String.eqb_eq in Heq. congruence.
      * destruct (Frame.position yc cols) as [j|] eqn:Hj; simpl; [|discriminate].
        intros Hi; inversion Hi; subst. simpl. intros c [Hc|Hc].
        -- subst. split; auto. intros ->. now rewrite String.eqb_refl in Heq.
        -- now apply (IH j).
Qed.

Lemma rename_label_year (yc : string) : rename_label yc yc = "implementation_year".
Proof. unfold rename_label. now rewrite String.eqb_refl. Qed.

Lemma rename_label_other (yc c : string) :
  year_like c = false -> c <> yc -> rename_label yc c <> "implementation_year".
Proof.
  unfold rename_label. intros Hc Hne.
  destruct (String.eqb c yc) eqn:Heq.
  - apply String.eqb_eq in Heq. contradiction.
  - destruct (String.eqb c "Policy"); [discriminate|].
    intros ->. vm_compute in Hc. discriminate.
Qed.

(** What the normaliser returns when it detects the column [yc], borne by
    one column only. *)
Lemma normalize_detected (to_numeric_str : string -> option Q) (repr_num : Q -> string)
      (dfs : list DataFrame) (yc : string) (df : DataFrame) :
  dfs <> [] ->
  year_col (columns (cpd_df dfs)) = Some yc ->
  normalize to_numeric_str repr_num dfs = Returned df ->
  columns df = map (rename_label yc) (columns (cpd_df dfs)) /\
  In "implementation_year" (columns df) /\
  Forall2 (fun raw r =>
             Frame.cell (columns df) r "implementation_year" =
             leading_year to_numeric_str repr_num (Frame.cell (columns (cpd_df dfs)) raw yc))
          (rows (cpd_df dfs)) (rows df).
Proof.
  intros Hne Hyc. unfold normalize. destruct dfs as [|d0 dfs0]; [contradiction|].
  set (dfs := d0 :: dfs0) in *. rewrite Hyc.
  destruct (count_occ string_dec (columns (cpd_df dfs)) yc =? 1)%nat; [|discriminate].
  intros H; inversion H; subst df; clear H.
  pose proof (find_some _ _ Hyc) as [Hin _].
  destruct (position_In _ _ Hin) as [i Hi].
  unfold Frame.map_column. rewrite Hi. unfold Frame.rename. cbn [columns rows].
  split; [reflexivity|]. split.
  - rewrite <- (rename_label_year yc). now apply in_map.
  - apply Forall2_map_self. intros raw Hraw.
    assert (Hpos : Frame.position "implementation_year"
                     (map (rename_label yc) (columns (cpd_df dfs))) = Some i).
    { rewrite <- (rename_label_year yc). apply position_map; auto.
      intros c Hc. rewrite rename_label_year.
      destruct (before_year_col _ _ _ Hyc Hi c Hc). now apply rename_label_other. }
    unfold Frame.cell. rewrite Hpos, Hi.
    apply nth_update_nth.
    destruct (position_Some_lt _ _ _ Hi) as [Hlt _].
    rewrite (concat_rows_width dfs raw Hraw).
    unfold cpd_df in Hlt. cbn [columns] in Hlt. now rewrite length_map in Hlt.
Qed.

(** The normaliser returns whenever trimming leaves the labels distinct. *)
Lemma normalize_returns (to_numeric_str : string -> option Q) (repr_num : Q -> string)
      (dfs : list DataFrame) :
  NoDup (columns (cpd_df dfs)) ->
  exists df, normalize to_numeric_str repr_num dfs = Returned df.
Proof.
  intros Hnd. unfold normalize. destruct dfs as [|d0 dfs0]; [eexists; reflexivity|].
  destruct (year_col (columns (cpd_df (d0 :: dfs0)))) as [yc|] eqn:Hyc;
    [|eexists; reflexivity].
  pose proof (find_some _ _ Hyc) as [Hin _].
  rewrite (proj1 (NoDup_count_occ' string_dec _) Hnd yc Hin). simpl.
  eexists; reflexivity.
Qed.



(** C2, as the code has it.  Whenever the normaliser returns, either the
    result is the empty frame (nothing was harvested, or no label is
    year-like), or every harvested row is kept and carries an
    [implementation_year] cell holding what the lenient parser makes of the
    leading four characters of the detected column: a number, or null when
    they do not parse. *)
Theorem normalized_year_or_empty
        (to_numeric_str : string -> option Q) (repr_num : Q -> string)
        (dfs : list DataFrame) (df : DataFrame)
        (Hret : normalize to_numeric_str repr_num dfs = Returned df) :
  (df = Frame.empty_frame /\
   (dfs = [] \/ year_col (columns (cpd_df dfs)) = None))
  \/
  (exists yc,
      year_col (columns (cpd_df dfs)) = Some yc /\
      In "implementation_year" (columns df) /\
      Forall2 (fun raw r =>
                 Frame.cell (columns df) r "implementation_year" =
                 match to_numeric_str
                         (Py.take 4 (astype_str repr_num (Frame.cell (columns (cpd_df dfs)) raw yc)))
                 with
                 | Some q => VNum q
                 | None => VNull
                 end)
              (rows (cpd_df dfs)) (rows df)).
Proof.
  destruct dfs as [|d0 dfs0].
  - left. simpl in Hret. inversion Hret. auto.
  - destruct (year_col (columns (cpd_df (d0 :: dfs0)))) as [yc|] eqn:Hyc.
    + right. exists yc. split; [reflexivity|].
      destruct (normalize_detected to_numeric_str repr_num (d0 :: dfs0) yc df)
        as [_ [Hin Hrows]]; auto; discriminate.
    + left. unfold normalize in Hret. rewrite Hyc in Hret. inversion Hret. auto.
Qed.

Lemma normalized_year_or_empty_witness :
  normalize decimal_cell decimal_repr [netzero_page] =
    Returned (mkDF ["policy_name"; "implementation_year"; "Region"]
                   [[VStr "Net-Zero Act"; VNum (inject_Z 2020); VStr "EU"]]) /\
  exists yc,
    year_col (columns (cpd_df [netzero_page])) = Some yc /\
    In "implementation_year" ["policy_name"; "implementation_year"; "Region"].
Proof.
  split; [reflexivity|].
  destruct (normalized_year_or_empty decimal_cell decimal_repr [netzero_page] _ eq_refl)
    as [[H _] | [yc [Hyc [Hin _]]]].
  - discriminate H.
  - exists yc. split; [exact Hyc | exact Hin].
Defined.

(** C2 as stated fails: a table whose date column reads "TBD" is normalised
    to a frame that is not empty and whose one record has a null
    [implementation_year], for every cell parser that rejects "TBD". *)
Lemma null_year_retained :
  exists df r,
    (forall to_numeric_str repr_num,
        to_numeric_str "TBD" = None ->
        extract_policies_cpd (only_first undated_page) to_numeric_str repr_num 60
        = Returned df) /\
    Frame.empty df = false /\
    In r (rows df) /\
    Frame.cell (columns df) r "implementation_year" = VNull.
Proof.
  exists (mkDF ["policy_name"; "implementation_year"] [[VStr "Plan A"; VNull]]).
  exists [VStr "Plan A"; VNull].
  split; [|split; [|split]].
  - intros p rp Hp. unfold extract_policies_cpd, normalize. vm_compute.
    rewrite Hp. reflexivity.
  - reflexivity.
  - now left.
  - reflexivity.
Qed.

(* ================================================================== *)
(** * Pagination *)

Lemma Forall2_indexed {A B : Type} (R : A -> B -> Prop) (f : nat -> A)
      (l : list B) (s : nat) :
  (forall j x, nth_error l j = Some x -> R (f (s + j)%nat) x) ->
  Forall2 R (map f (seq s (List.length l))) l.
Proof.
  revert s; induction l as [|b l IH]; intros s H; simpl; constructor.
  - specialize (H O b eq_refl). now rewrite Nat.add_0_r in H.
  - apply IH. intros j x Hj. specialize (H (S j) x Hj).
    now rewrite Nat.add_succ_r in H.
Qed.

Lemma seq_split_at (s n k : nat) :
  (k < n)%nat ->
  seq s n = seq s k ++ (s + k)%nat :: seq (S (s + k)) (n - S k).
Proof.
  intros Hk. replace n with (k + S (n - S k))%nat at 1 by lia.
  now rewrite seq_app.
Qed.

Lemma harvest_loop_stops (read_html : Z -> option DataFrame)
      (pre : list Z) (pg : Z) (post : list Z) (dfs acc : list DataFrame) (asked : list Z) :
  Forall2 (fun p df => read_html (p * 50)%Z = Some df) pre dfs ->
  read_html (pg * 50)%Z = None ->
  harvest_loop read_html (pre ++ pg :: post) acc asked =
  (acc ++ dfs, asked ++ map (fun p => (p * 50)%Z) (pre ++ [pg])).
Proof.
  intros Hpre Hfail. revert acc asked.
  induction Hpre as [|p df pre dfs Hp _ IH]; intros acc asked; simpl.
  - rewrite Hfail. now rewrite app_nil_r.
  - rewrite Hp, IH. now rewrite <- !app_assoc.
Qed.

Lemma zero_results_break (year : Z) (data : pyval) :
  zero_results data -> page_records year data = Returned None.
Proof.
  intros [body [-> H]]. unfold page_records. simpl.
  destruct (Dict.lookup "results" body) as [results|]; simpl.
  - now rewrite H.
  - reflexivity.
Qed.

Lemma registry_loop_stops (get_json : Z -> Z -> option pyval) (year : Z)
      (pre : list Z) (pg : Z) (post : list Z) (pages : list (list PolicyRecord))
      (acc : list PolicyRecord) (asked : list Z) :
  Forall2 (fun p recs => exists data,
               get_json year p = Some data /\
               page_records year data = Returned (Some recs)) pre pages ->
  (get_json year pg = None \/
   exists data, get_json year pg = Some data /\ zero_results data) ->
  registry_loop get_json year (pre ++ pg :: post) acc asked =
  (Returned (acc ++ List.concat pages), asked ++ pre ++ [pg]).
Proof.
  intros Hpre Hfail. revert acc asked.
  induction Hpre as [|p recs pre pages [data [Hget Hrecs]] _ IH]; intros acc asked; simpl.
  - rewrite app_nil_r. destruct Hfail as [Hnone | [data [Hget Hzero]]].
    + now rewrite Hnone.
    + rewrite Hget. now rewrite (zero_results_break year data Hzero).
  - rewrite Hget, Hrecs, IH. now rewrite <- !app_assoc.
Qed.

Lemma nth_update_nth_other (i j : nat) (f : value -> value) (r : list value) :
  i <> j -> nth j (Frame.update_nth i f r) VNull = nth j r VNull.
Proof.
  revert i j; induction r as [|v r IH]; intros i j Hij.
  - now destruct i.
  - destruct i, j; simpl; try reflexivity; [lia | apply IH; lia].
Qed.

Lemma rows_concat_count (dfs : list DataFrame) :
  List.length (rows (Frame.concat dfs)) =
  list_sum (map (fun df => List.length (rows df)) dfs).
Proof.
  unfold Frame.concat. cbn [rows].
  generalize (Frame.union_columns dfs) as cols. intros cols.
  induction dfs as [|df dfs IH]; simpl; [reflexivity|].
  rewrite length_app, IH. unfold Frame.realign. now rewrite length_map.
Qed.


(** In a frame with distinct labels, reading a row label by label gives the
    row back. *)
Lemma position_app_here (pre : list string) (c : string) (l : list string) :
  ~ In c pre -> Frame.position c (pre ++ c :: l) = Some (List.length pre).
Proof.
  induction pre as [|a pre IH]; intros Hn; simpl.
  - now rewrite String.eqb_refl.
  - destruct (String.eqb c a) eqn:E.
    + apply String.eqb_eq in E. subst. elim Hn. now left.
    + rewrite IH; [reflexivity|]. intros H. apply Hn. now right.
Qed.

Lemma cells_of_row (pre l : list string) (rp r : list value) :
  NoDup (pre ++ l) ->
  List.length rp = List.length pre -> List.length r = List.length l ->
  map (Frame.cell (pre ++ l) (rp ++ r)) l = r.
Proof.
  revert pre rp r. induction l as [|c l IH]; intros pre rp r Hnd Hp Hr.
  - destruct r; [reflexivity | discriminate].
  - destruct r as [|v r]; [discriminate|]. cbn [map]. f_equal.
    + unfold Frame.cell. rewrite position_app_here.
      * rewrite <- Hp, app_nth2, Nat.sub_diag by lia. reflexivity.
      * apply NoDup_remove_2 in Hnd. intros H. apply Hnd, in_or_app. now left.
    + specialize (IH (pre ++ [c]) (rp ++ [v]) r).
      rewrite <- !app_assoc in IH. apply IH.
      * exact Hnd.
      * rewrite !length_app. simpl. lia.
      * simpl in Hr. lia.
Qed.

Lemma dedup_from_seen (seen l : list string) :
  (forall c, In c l -> In c seen) -> Frame.dedup_from seen l = [].
Proof.
  induction l as [|c l IH]; intros H; simpl; [reflexivity|].
  assert (Hc : Frame.has_column c seen = true).
  { apply has_column_In, H. now left. }
  rewrite Hc. apply IH. intros x Hx. apply H. now right.
Qed.

Lemma dedup_from_fresh (seen l rest : list string) :
  NoDup (seen ++ l) ->
  (forall c, In c rest -> In c (seen ++ l)) ->
  Frame.dedup_from seen (l ++ rest) = l.
Proof.
  revert seen. induction l as [|c l IH]; intros seen Hnd Hrest; simpl.
  - apply dedup_from_seen. intros c Hc. specialize (Hrest c Hc).
    now rewrite app_nil_r in Hrest.
  - assert (Hc : Frame.has_column c seen = false).
    { destruct (Frame.has_column c seen) eqn:E; [|reflexivity].
      apply has_column_In in E. apply NoDup_remove_2 in Hnd.
      elim Hnd. apply in_or_app. now left. }
    rewrite Hc. f_equal. apply IH.
    + apply NoDup_remove in Hnd. destruct Hnd as [Hnd Hnot].
      simpl. constructor; [|exact Hnd]. exact Hnot.
    + intros x Hx. specialize (Hrest x Hx).
      apply in_app_or in Hrest. destruct Hrest as [H|[H|H]].
      * right. apply in_or_app. now left.
      * subst. now left.
      * right. apply in_or_app. now right.
Qed.

(** Pages that all bear the same distinct labels are concatenated row
    after row, under those labels. *)
Lemma concat_same_labels (labels : list string) (dfs : list DataFrame) :
  dfs <> [] -> NoDup labels ->
  (forall df, In df dfs ->
              columns df = labels /\
              forall r, In r (rows df) -> List.length r = List.length labels) ->
  columns (Frame.concat dfs) = labels /\
  rows (Frame.concat dfs) = flat_map rows dfs.
Proof.
  intros Hne Hnd Hall.
  assert (Hcols : Frame.union_columns dfs = labels).
  { unfold Frame.union_columns. destruct dfs as [|d0 dfs0]; [contradiction|].
    cbn [flat_map]. rewrite (proj1 (Hall d0 (or_introl eq_refl))).
    apply dedup_from_fresh; [exact Hnd|].
    intros c Hc. apply in_flat_map in Hc. destruct Hc as [df [Hdf Hc]].
    rewrite (proj1 (Hall df (or_intror Hdf))) in Hc. exact Hc. }
  unfold Frame.concat. rewrite Hcols. cbn [columns rows]. split; [reflexivity|].
  clear Hne Hcols. induction dfs as [|df dfs IH]; [reflexivity|].
  cbn [flat_map]. rewrite IH by (intros d Hd; apply Hall; now right). f_equal.
  destruct (Hall df (or_introl eq_refl)) as [Hc Hw].
  unfold Frame.realign. rewrite Hc.
  rewrite <- (map_id (rows df)) at 2. apply map_ext_in. intros r Hr.
  apply (cells_of_row [] labels [] r); auto.
Qed.

(** The normaliser on a table whose detected label stands on one column. *)
Lemma normalize_unique (to_numeric_str : string -> option Q) (repr_num : Q -> string)
      (dfs : list DataFrame) (yc : string) :
  dfs <> [] ->
  year_col (columns (cpd_df dfs)) = Some yc ->
  count_occ string_dec (columns (cpd_df dfs)) yc = 1%nat ->
  exists i,
    Frame.position yc (columns (cpd_df dfs)) = Some i /\
    normalize to_numeric_str repr_num dfs =
      Returned (mkDF (map (rename_label yc) (columns (cpd_df dfs)))
                     (map (Frame.update_nth i (leading_year to_numeric_str repr_num))
                          (rows (Frame.concat dfs)))).
Proof.
  intros Hne Hyc Hcount. unfold normalize. destruct dfs as [|d0 dfs0]; [contradiction|].
  set (dfs := d0 :: dfs0) in *. rewrite Hyc, Hcount. cbn [Nat.eqb].
  pose proof (find_some _ _ Hyc) as [Hin _].
  destruct (position_In _ _ Hin) as [i Hi]. exists i. split; [exact Hi|].
  unfold Frame.map_column. rewrite Hi. reflexivity.
Qed.

(** C5, as the code has it.  In both adapters the first page that fails
    (for the JSON adapter also the first page with zero result records)
    ends the loop, and is the last page requested.  The JSON adapter then
    returns exactly the records of the pages before it, in order.  The
    table adapter has accumulated exactly the tables of the pages before
    it, and its call returns their normalisation: the empty frame when
    there is no such page or no label is year-like; an exception when the
    detected label stands on several columns; and otherwise one row for
    each row of the concatenated tables, in order, equal to it outside the
    detected column and holding the parsed year there.  Tables that share
    their distinct labels are concatenated row after row.  A failure on
    the very first page gives an empty result in both adapters. *)
Theorem pagination_stops_at_failure
        (read_html : Z -> option DataFrame)
        (to_numeric_str : string -> option Q) (repr_num : Q -> string)
        (get_json : Z -> Z -> option pyval)
        (year max_cpd max_reg : Z)
        (dfs : list DataFrame) (pages : list (list PolicyRecord))
        (Hlen : (List.length dfs < Z.to_nat max_cpd)%nat)
        (Hgood : forall j df, nth_error dfs j = Some df ->
                              read_html (Z.of_nat j * 50)%Z = Some df)
        (Hfail : read_html (Z.of_nat (List.length dfs) * 50)%Z = None)
        (Hlen' : (List.length pages < Z.to_nat max_reg)%nat)
        (Hgood' : forall j recs, nth_error pages j = Some recs ->
                                 exists data,
                                   get_json year (Z.of_nat (1 + j)) = Some data /\
                                   page_records year data = Returned (Some recs))
        (Hfail' : get_json year (Z.of_nat (1 + List.length pages)) = None \/
                  exists data,
                    get_json year (Z.of_nat (1 + List.length pages)) = Some data /\
                    zero_results data) :
  (harvest read_html max_cpd =
     (dfs, map (fun j => (Z.of_nat j * 50)%Z) (seq 0 (1 + List.length dfs))) /\
   (dfs = [] \/ year_col (columns (cpd_df dfs)) = None ->
    extract_policies_cpd read_html to_numeric_str repr_num max_cpd =
      Returned Frame.empty_frame) /\
   (forall yc,
       dfs <> [] ->
       year_col (columns (cpd_df dfs)) = Some yc ->
       count_occ string_dec (columns (cpd_df dfs)) yc <> 1%nat ->
       extract_policies_cpd read_html to_numeric_str repr_num max_cpd =
         Raised AttributeError) /\
   (forall yc,
       dfs <> [] ->
       year_col (columns (cpd_df dfs)) = Some yc ->
       count_occ string_dec (columns (cpd_df dfs)) yc = 1%nat ->
       exists out i,
         extract_policies_cpd read_html to_numeric_str repr_num max_cpd = Returned out /\
         Frame.position yc (columns (cpd_df dfs)) = Some i /\
         columns out = map (rename_label yc) (columns (cpd_df dfs)) /\
         Forall2 (fun raw r =>
                    List.length r = List.length raw /\
                    (forall j, j <> i -> nth j r VNull = nth j raw VNull) /\
                    nth i r VNull =
                      leading_year to_numeric_str repr_num (nth i raw VNull))
                 (rows (Frame.concat dfs)) (rows out)) /\
   (forall labels,
       dfs <> [] -> NoDup labels ->
       (forall df, In df dfs ->
                   columns df = labels /\
                   forall r, In r (rows df) -> List.length r = List.length labels) ->
       columns (cpd_df dfs) = map Py.strip labels /\
       rows (Frame.concat dfs) = flat_map rows dfs)) /\
  (registry_run get_json year max_reg =
     (Returned (List.concat pages), map Z.of_nat (seq 1 (1 + List.length pages))) /\
   extract_environment_policies get_json year max_reg = Returned (List.concat pages) /\
   (pages = [] -> extract_environment_policies get_json year max_reg = Returned [])).
Proof.
  assert (Hcpd : harvest read_html max_cpd =
                 (dfs, map (fun j => (Z.of_nat j * 50)%Z) (seq 0 (1 + List.length dfs)))).
  { unfold harvest, range.
    rewrite (seq_split_at 0 (Z.to_nat max_cpd) (List.length dfs) Hlen), map_app.
    cbn [map Nat.add].
    rewrite (harvest_loop_stops read_html _ _ _ dfs [] []); auto.
    - cbn [app Nat.add]. f_equal. rewrite seq_S, !map_app, map_map. reflexivity.
    - apply Forall2_indexed. intros j df Hj. now apply Hgood. }
  assert (Hreg : registry_run get_json year max_reg =
                 (Returned (List.concat pages),
                  map Z.of_nat (seq 1 (1 + List.length pages)))).
  { unfold registry_run, range1.
    rewrite (seq_split_at 1 (Z.to_nat max_reg) (List.length pages) Hlen'), map_app.
    cbn [map].
    rewrite (registry_loop_stops get_json year _ _ _ pages [] []); auto.
    - cbn [app Nat.add]. f_equal. rewrite seq_S, !map_app. reflexivity.
    - apply Forall2_indexed. intros j recs Hj. now apply Hgood'. }
  assert (Hcall : extract_policies_cpd read_html to_numeric_str repr_num max_cpd =
                  normalize to_numeric_str repr_num dfs).
  { unfold extract_policies_cpd, all_dfs. now rewrite Hcpd. }
  split; [split; [exact Hcpd | split; [|split; [|split]]] | split; [exact Hreg | split]].
  - rewrite Hcall. intros [->|Hnone]; [reflexivity|].
    unfold normalize. destruct dfs; [reflexivity|]. now rewrite Hnone.
  - intros yc Hne Hyc Hdup. rewrite Hcall. unfold normalize.
    destruct dfs as [|d0 dfs0]; [contradiction|]. rewrite Hyc.
    apply Nat.eqb_neq in Hdup. now rewrite Hdup.
  - intros yc Hne Hyc Hone. rewrite Hcall.
    destruct (normalize_unique to_numeric_str repr_num dfs yc Hne Hyc Hone) as [i [Hi Hn]].
    eexists. exists i. split; [exact Hn|]. split; [exact Hi|]. split; [reflexivity|].
    cbn [rows]. apply Forall2_map_self. intros raw Hraw.
    assert (Hlt : (i < List.length raw)%nat).
    { destruct (position_Some_lt _ _ _ Hi) as [Hlt _].
      rewrite (concat_rows_width dfs raw Hraw).
      unfold cpd_df in Hlt. cbn [columns] in Hlt. now rewrite length_map in Hlt. }
    split; [apply length_update_nth|]. split.
    + intros j Hj. apply nth_update_nth_other. congruence.
    + now apply nth_update_nth.
  - intros labels Hne Hnd Hall.
    destruct (concat_same_labels labels dfs Hne Hnd Hall) as [Hc Hr].
    split; [|exact Hr]. unfold cpd_df. cbn [columns]. now rewrite Hc.
  - unfold extract_environment_policies. now rewrite Hreg.
  - intros ->. unfold extract_environment_policies. now rewrite Hreg.
Qed.

Lemma pagination_stops_at_failure_witness :
  harvest (only_first netzero_page) 60 = ([netzero_page], [0; 50]%Z) /\
  (exists out i,
      extract_policies_cpd (only_first netzero_page) decimal_cell decimal_repr 60
      = Returned out /\
      Frame.position "AdoptionDate" (columns (cpd_df [netzero_page])) = Some i /\
      rows out = [[VStr "Net-Zero Act"; VNum (inject_Z 2020); VStr "EU"]]) /\
  registry_run (one_page epa_body) 2020 3 = (Returned [epa_record], [1; 2]%Z).
Proof.
  assert (H1 : forall j df, nth_error [netzero_page] j = Some df ->
                            only_first netzero_page (Z.of_nat j * 50)%Z = Some df).
  { intros j df Hj. destruct j as [|j].
    - exact Hj.
    - destruct j; discriminate Hj. }
  assert (H2 : forall j recs, nth_error [[epa_record]] j = Some recs ->
                              exists data,
                                one_page epa_body 2020 (Z.of_nat (1 + j)) = Some data /\
                                page_records 2020 data = Returned (Some recs)).
  { intros j recs Hj. destruct j as [|j].
    - exists epa_body. split; [reflexivity|].
      inversion Hj; subst. reflexivity.
    - destruct j; discriminate Hj. }
  pose proof (pagination_stops_at_failure
                (only_first netzero_page) decimal_cell decimal_repr
                (one_page epa_body) 2020 60 3 [netzero_page] [[epa_record]]
                ltac:(simpl; lia) H1 eq_refl ltac:(simpl; lia) H2 (or_introl eq_refl))
    as [[Ha [_ [_ [Hb _]]]] [Hc _]].
  split; [exact Ha|]. split; [|exact Hc].
  destruct (Hb "AdoptionDate" ltac:(discriminate) eq_refl eq_refl)
    as [out [i [Hout [Hi _]]]].
  exists out, i. split; [exact Hout|]. split; [exact Hi|].
  assert (Heq : Returned out =
                Returned (mkDF ["policy_name"; "implementation_year"; "Region"]
                               [[VStr "Net-Zero Act"; VNum (inject_Z 2020); VStr "EU"]])).
  { rewrite <- Hout. reflexivity. }
  inversion Heq. reflexivity.
Defined.

(** C5 as stated fails for the table adapter: a first page without a
    year-like column, followed by a failure, is accumulated, yet the call
    returns the empty frame and not the record of that page. *)
Lemma harvest_without_year_column_dropped :
  harvest (only_first regionless_page) 60 = ([regionless_page], [0; 50]%Z) /\
  rows regionless_page = [[VStr "Net-Zero Act"; VStr "EU"]] /\
  (forall to_numeric_str repr_num,
      extract_policies_cpd (only_first regionless_page) to_numeric_str repr_num 60
      = Returned Frame.empty_frame) /\
  rows Frame.empty_frame = [].
Proof.
  repeat split.
Qed.


(* ================================================================== *)
(** * The reshaper *)

Lemma insert_by_year_perm (r : LongRow) (l : list LongRow) :
  Permutation (r :: l) (insert_by_year r l).
Proof.
  induction l as [|x l IH]; simpl; [reflexivity|].
  destruct (Year r <=? Year x)%Z; [reflexivity|].
  rewrite perm_swap. now constructor.
Qed.

Lemma sort_values_perm (l : list LongRow) : Permutation l (sort_values l).
Proof.
  induction l as [|r l IH]; simpl; [constructor|].
  rewrite <- insert_by_year_perm. now constructor.
Qed.



Lemma filter_flat_map {A B : Type} (p : B -> bool) (g : A -> list B) (l : list A) :
  filter p (flat_map g l) = flat_map (fun x => filter p (g x)) l.
Proof.
  induction l as [|a l IH]; simpl; [reflexivity|].
  now rewrite filter_app, IH.
Qed.


Lemma eq_str_true (v : value) (s : string) :
  Frame.eq_str v s = true <-> v = VStr s.
Proof.
  destruct v as [|q|s']; simpl; try (split; discriminate).
  rewrite String.eqb_eq. split; [now intros -> | now intros H; inversion H].
Qed.

Lemma isna_false (v : value) : Frame.isna v = false <-> v <> VNull.
Proof. destruct v; simpl; split; congruence. Qed.

Lemma has_na_false (p : LongRow) : has_na p = false <-> fields_present p.
Proof.
  unfold has_na, fields_present. rewrite !orb_false_iff, !isna_false.
  destruct (Emissions p); intuition congruence.
Qed.

Section ReshaperFacts.

Variable to_numeric_str : string -> option Q.




(** The reshaper returns when the five identifier columns exist and the
    year labels fit the integer column. *)
Lemma plot_df_returns (df : DataFrame) (country sector : string) :
  (forall c, In c id_vars -> In c (columns df)) ->
  (forall y, In y (year_cols df) -> (Py.int y <= int64_max)%Z) ->
  exists plot, plot_df to_numeric_str df country sector = Returned plot.
Proof.
  intros Hids Hfit. unfold plot_df, long_df, country_df, melt.
  assert (Hc : Frame.has_column "Country" (columns df) = true).
  { apply has_column_In, Hids. simpl; tauto. }
  rewrite Hc. cbn [bind Frame.select columns rows].
  assert (Hall : forallb (fun c => Frame.has_column c (columns df)) id_vars = true).
  { apply forallb_forall. intros c Hin. now apply has_column_In, Hids. }
  rewrite Hall. cbn [bind].
  match goal with
  | |- context [forallb fits_int64 ?m] =>
      assert (Hm : forallb fits_int64 m = true)
  end.
  { apply forallb_forall. intros [[i y] v] Hin.
    apply in_flat_map in Hin. destruct Hin as [y' [Hy' Hin]].
    apply in_map_iff in Hin. destruct Hin as [r [Heq _]].
    inversion Heq; subst. apply Z.leb_le. now apply Hfit. }
  rewrite Hm. cbn [bind]. eexists. reflexivity.
Qed.


End ReshaperFacts.

Lemma flat_map_flat_map {A B C : Type} (f : B -> list C) (g : A -> list B) (l : list A) :
  flat_map f (flat_map g l) = flat_map (fun x => flat_map f (g x)) l.
Proof.
  induction l as [|a l IH]; simpl; [reflexivity|].
  now rewrite flat_map_app, IH.
Qed.

Lemma flat_map_map {A B C : Type} (f : B -> list C) (g : A -> B) (l : list A) :
  flat_map f (map g l) = flat_map (fun x => f (g x)) l.
Proof.
  induction l as [|a l IH]; simpl; [reflexivity | now rewrite IH].
Qed.

Section FullReshaperFacts.

Variable isdigit : string -> bool.
Variable int_of : string -> option Z.
Variable to_numeric_str : string -> option Q.

(** Line 107 on the whole column: when the cast returns, every label of a
    melted row reads as an integer that fits, and the typed rows are the
    melted rows with their labels read. *)
Lemma cast_years_returned (m : list (Ids * string * value)) (typed : list (Ids * Z * value)) :
  traverse (Full.cast_year int_of) m = Returned typed ->
  Forall (fun x => exists n, int_of (snd (fst x)) = Some n /\ (n <= int64_max)%Z) m /\
  map (Full.cast_emissions to_numeric_str) typed =
    flat_map (fun x => match int_of (snd (fst x)) with
                       | Some n => [mkLong (fst (fst x)) n (to_numeric to_numeric_str (snd x))]
                       | None => []
                       end) m.
Proof.
  revert typed. induction m as [|[[i y] v] m IH]; intros typed; cbn [traverse].
  - intros H; inversion H. split; [constructor | reflexivity].
  - unfold Full.cast_year at 1.
    destruct (int_of y) as [n|] eqn:Hy; [|discriminate].
    destruct (n <=? int64_max)%Z eqn:Hn; [|discriminate]. cbn [bind].
    destruct (traverse (Full.cast_year int_of) m) as [bs|e]; cbn [bind]; [|discriminate].
    intros H; inversion H; subst typed; clear H.
    destruct (IH bs eq_refl) as [Hall Hmap]. split.
    + constructor; [|exact Hall]. exists n. cbn [fst snd]. split; [exact Hy|].
      now apply Z.leb_le.
    + cbn [map flat_map fst snd Full.cast_emissions]. rewrite Hy, Hmap. reflexivity.
Qed.

(** The wide rows under one year column: the steps of the script give the
    points the specification describes. *)
Lemma full_steps_series_spec (cols : list string) (country sector y : string)
      (rs : list (list value)) :
  filter (fun p => Frame.eq_str (Sector (ids p)) sector)
    (filter (fun p => negb (has_na p))
       (flat_map (fun r => match int_of y with
                           | Some n => [mkLong (ids_of cols r) n
                                               (to_numeric to_numeric_str (Frame.cell cols r y))]
                           | None => []
                           end)
          (filter (fun r => Frame.eq_str (Frame.cell cols r "Country") country) rs)))
  = flat_map (Full.point_of int_of to_numeric_str cols country sector y) rs.
Proof.
  induction rs as [|r rs IH]; [reflexivity|].
  cbn [flat_map filter]. rewrite <- IH. clear IH.
  unfold Full.point_of.
  change (Frame.cell cols r "Country") with (Country (ids_of cols r)).
  destruct (Frame.eq_str (Country (ids_of cols r)) country) eqn:Hc.
  - cbn [flat_map]. rewrite !filter_app. f_equal.
    destruct (int_of y) as [n|]; [|reflexivity].
    cbn [filter]. unfold has_na. cbn [ids Emissions].
    assert (HnaC : Frame.isna (Country (ids_of cols r)) = false).
    { apply eq_str_true in Hc. now rewrite Hc. }
    rewrite HnaC.
    destruct (to_numeric to_numeric_str (Frame.cell cols r y)) as [q|].
    + destruct (Frame.eq_str (Sector (ids_of cols r)) sector) eqn:Hs.
      * assert (HnaS : Frame.isna (Sector (ids_of cols r)) = false).
        { apply eq_str_true in Hs. now rewrite Hs. }
        rewrite HnaS.
        destruct (Frame.isna (ISO (ids_of cols r))),
                 (Frame.isna (Gas (ids_of cols r))),
                 (Frame.isna (Unit (ids_of cols r)));
          cbn [orb andb negb filter ids]; rewrite ?Hs; reflexivity.
      * destruct (Frame.isna (ISO (ids_of cols r))),
                 (Frame.isna (Sector (ids_of cols r))),
                 (Frame.isna (Gas (ids_of cols r))),
                 (Frame.isna (Unit (ids_of cols r)));
          cbn [orb andb negb filter ids]; rewrite ?Hs; reflexivity.
    + rewrite !orb_true_r. reflexivity.
  - destruct (int_of y); destruct (to_numeric to_numeric_str (Frame.cell cols r y));
      reflexivity.
Qed.

(** The series plotted is the specified series, sorted. *)
Lemma full_plot_df_series_spec (df : DataFrame) (country sector : string)
      (plot : list LongRow) :
  Full.plot_df isdigit int_of to_numeric_str df country sector = Returned plot ->
  plot = sort_values (Full.series_spec isdigit int_of to_numeric_str df country sector).
Proof.
  unfold Full.plot_df, Full.long_df, country_df, melt.
  destruct (Frame.has_column "Country" (columns df)); [|discriminate].
  cbn [bind Frame.select columns rows].
  destruct (forallb (fun c => Frame.has_column c (columns df)) id_vars); [|discriminate].
  cbn [bind].
  match goal with
  | |- context [traverse (Full.cast_year int_of) ?m] =>
      destruct (traverse (Full.cast_year int_of) m) as [typed|e] eqn:Ht
  end; [|discriminate].
  cbn [bind]. intros H; inversion H; subst; clear H. f_equal.
  apply cast_years_returned in Ht. destruct Ht as [_ Ht]. rewrite Ht.
  unfold Full.series_spec, dropna, Full.year_cols.
  rewrite flat_map_flat_map, !filter_flat_map.
  apply flat_map_ext. intros y. rewrite flat_map_map. cbn [fst snd].
  apply full_steps_series_spec.
Qed.

Lemma full_in_point_of (cols : list string) (country sector y : string)
      (r : list value) (p : LongRow) :
  In p (Full.point_of int_of to_numeric_str cols country sector y r) <->
  exists n q,
    int_of y = Some n /\
    to_numeric to_numeric_str (Frame.cell cols r y) = Some q /\
    Frame.cell cols r "Country" = VStr country /\
    Frame.cell cols r "Sector" = VStr sector /\
    Frame.cell cols r "ISO" <> VNull /\
    Frame.cell cols r "Gas" <> VNull /\
    Frame.cell cols r "Unit" <> VNull /\
    p = mkLong (ids_of cols r) n (Some q).
Proof.
  unfold Full.point_of. cbn [ids_of ISO Country Sector Gas Unit].
  destruct (int_of y) as [n|].
  - destruct (to_numeric to_numeric_str (Frame.cell cols r y)) as [q|].
    + match goal with |- In p (if ?b then _ else _) <-> _ => destruct b eqn:Hb end.
      * rewrite !andb_true_iff, !negb_true_iff, !eq_str_true, !isna_false in Hb.
        destruct Hb as [[[[H1 H2] H3] H4] H5]. simpl. split.
        -- intros [<-|[]]. exists n, q. repeat split; auto.
        -- intros [n' [q' [Hn [Hq [_ [_ [_ [_ [_ ->]]]]]]]]].
           inversion Hn. inversion Hq. now left.
      * split; [intros []|]. intros [n' [q' [_ [_ [H1 [H2 [H3 [H4 [H5 _]]]]]]]]].
        apply eq_str_true in H1, H2. apply isna_false in H3, H4, H5.
        rewrite H1, H2, H3, H4, H5 in Hb. discriminate.
    + split; [intros []|]. intros [n' [q [_ [Hq _]]]]. discriminate.
  - split; [intros []|]. intros [n' [q [Hn _]]]. discriminate.
Qed.

End FullReshaperFacts.

(** With ASCII digits for the character database, the reshaper is the
    reshaper on ASCII labels. *)
Lemma cast_years_ascii (m : list (Ids * string * value)) :
  traverse (Full.cast_year ascii_int) m =
  if forallb fits_int64 m
  then Returned (map (fun x => (fst (fst x), Py.int (snd (fst x)), snd x)) m)
  else Raised OverflowError.
Proof.
  induction m as [|[[i y] v] m IH]; [reflexivity|].
  cbn [traverse forallb map fst snd]. unfold Full.cast_year at 1, ascii_int at 1.
  unfold fits_int64 at 1.
  destruct (Py.int y <=? int64_max)%Z; cbn [bind andb]; [|reflexivity].
  rewrite IH. destruct (forallb fits_int64 m); reflexivity.
Qed.

Lemma full_reshape_ascii (to_numeric_str : string -> option Q)
      (raw : DataFrame) (country sector : string) :
  Full.reshape Py.isdigit ascii_int to_numeric_str raw country sector
  = reshape to_numeric_str raw country sector.
Proof.
  unfold Full.reshape, reshape, Full.plot_df, plot_df, Full.long_df, long_df.
  change (Full.year_cols Py.isdigit (repair_columns raw))
    with (year_cols (repair_columns raw)).
  destruct (country_df (repair_columns raw) country) as [cdf|e]; [|reflexivity].
  cbn [bind].
  destruct (melt cdf (year_cols (repair_columns raw))) as [m|e]; [|reflexivity].
  cbn [bind]. rewrite cast_years_ascii.
  destruct (forallb fits_int64 m); [|reflexivity].
  cbn [bind]. rewrite map_map.
  assert (Hm : map (fun x => Full.cast_emissions to_numeric_str
                                (fst (fst x), Py.int (snd (fst x)), snd x)) m
               = map (cast to_numeric_str) m).
  { apply map_ext. intros [[i y] v]. reflexivity. }
  now rewrite Hm.
Qed.



(** C10.  The drop step keeps a long row only if none of its fields is
    missing: a row is in the result of [dropna] exactly when it was in the
    table and its five identifiers and its emissions value are all present;
    so every row of the long table has all fields, and a wide row with a
    parseable value but no ISO code gives no point at all. *)
Theorem dropna_every_column (to_numeric_str : string -> option Q) :
  (forall l p, In p (dropna l) <-> In p l /\ fields_present p) /\
  (forall df country,
      match long_df to_numeric_str df country with
      | Returned l => Forall fields_present l
      | Raised _ => True
      end) /\
  to_numeric to_numeric_str (VNum (inject_Z 100)) = Some (inject_Z 100) /\
  long_df to_numeric_str (repair_columns wide_no_iso) "X" = Returned [] /\
  reshape to_numeric_str wide_no_iso "X" "Energy" = Returned [].
Proof.
  assert (Hdrop : forall l p, In p (dropna l) <-> In p l /\ fields_present p).
  { intros l p. unfold dropna. rewrite filter_In, negb_true_iff, has_na_false.
    reflexivity. }
  split; [exact Hdrop|]. split; [|repeat split].
  intros df country. unfold long_df, country_df, melt.
  destruct (Frame.has_column "Country" (columns df)); [|exact I].
  cbn [bind Frame.select columns rows].
  destruct (forallb (fun c => Frame.has_column c (columns df)) id_vars); [|exact I].
  cbn [bind].
  match goal with |- context [forallb fits_int64 ?m] => destruct (forallb fits_int64 m) end;
    [|exact I].
  apply Forall_forall. intros p Hp. now apply Hdrop in Hp.
Qed.

(* ================================================================== *)
(** * The impact summary *)






(* ================================================================== *)
(** * The JSON adapter *)

Lemma traverse_Forall2 {A B : Type} (f : A -> outcome B) (l : list A) (bs : list B) :
  traverse f l = Returned bs <-> Forall2 (fun a b => f a = Returned b) l bs.
Proof.
  revert bs; induction l as [|a l IH]; intros bs; simpl.
  - split.
    + intros H; inversion H. constructor.
    + intros H; inversion H. reflexivity.
  - destruct (f a) as [b|e] eqn:Hfa; simpl.
    + destruct (traverse f l) as [bs'|e] eqn:Ht; simpl.
      * split.
        -- intros H; inversion H; subst. constructor; [assumption | now apply IH].
        -- intros H; inversion H as [|? b' ? bs'' Hb Hrest]; subst.
           apply IH in Hrest. congruence.
      * split; [discriminate|].
        intros H; inversion H as [|? b' ? bs'' Hb Hrest]; subst.
        apply IH in Hrest. discriminate.
    + split; [discriminate|].
      intros H; inversion H; subst. congruence.
Qed.

Lemma traverse_total {A B : Type} (f : A -> outcome B) (l : list A) :
  Forall (fun a => exists b, f a = Returned b) l ->
  exists bs, traverse f l = Returned bs.
Proof.
  induction 1 as [|a l [b Hb] _ [bs Hbs]]; simpl.
  - now exists [].
  - rewrite Hb, Hbs. simpl. now exists (b :: bs).
Qed.

(** The comprehension of lines 209-212 keeps the name-bearing entries. *)
Lemma agency_names_kept (l : list pyval) :
  agency_names (PList l) = Returned (map name_of (filter name_bearing l)).
Proof.
  unfold agency_names. simpl. f_equal.
  induction l as [|e l IH]; simpl; [reflexivity|].
  rewrite IH. destruct e as [| | | | |l'|d]; simpl; try reflexivity.
  destruct (Dict.lookup "name" d) eqn:Hn; simpl; rewrite ?Hn; reflexivity.
Qed.

Lemma join_texts (sep : string) (names : list pyval) :
  Forall (fun n => is_text n = true) names ->
  Dict.join sep names = Returned (Py.join sep (map text_of names)).
Proof.
  intros Hall. unfold Dict.join.
  assert (Ht : traverse (fun v => match v with
                                  | PStr s => Returned s
                                  | _ => Raised TypeError
                                  end) names = Returned (map text_of names)).
  { induction Hall as [|n names Hn _ IH]; simpl; [reflexivity|].
    destruct n; try discriminate. simpl. now rewrite IH. }
  now rewrite Ht.
Qed.

Lemma kept_names_text (l : list pyval) :
  Forall (fun e => name_bearing e = true -> is_text (name_of e) = true) l ->
  Forall (fun n => is_text n = true) (map name_of (filter name_bearing l)).
Proof.
  induction 1 as [|e l He _ IH]; simpl; [constructor|].
  destruct (name_bearing e) eqn:Hb; simpl; [constructor; auto | assumption].
Qed.




(** What a record built from an item holds. *)
Lemma record_of_fields (year : Z) (item : pyval) (rec : PolicyRecord) :
  record_of year item = Returned rec ->
  exists d,
    item = PDict d /\
    policy_name rec = entry_or_none "title" d /\
    policy_type rec = entry_or_none "type" d /\
    implementation_year rec = year /\
    source rec = "US Federal Register" /\
    source_url rec = entry_or_none "html_url" d.
Proof.
  unfold record_of. destruct item as [| | | | | |d]; try discriminate.
  cbn [Dict.get bind].
  destruct (agency_names _) as [names|e]; cbn [bind]; [|discriminate].
  destruct (agency_field names) as [ag|e]; cbn [bind]; [|discriminate].
  intros H; inversion H; subst; clear H. exists d. cbn. unfold entry_or_none.
  repeat split.
Qed.

(** The records a page adds come from the items of its result list. *)
Lemma page_records_items (year : Z) (data : pyval) (recs : list PolicyRecord) :
  page_records year data = Returned (Some recs) ->
  forall r, In r recs ->
    exists body results item,
      data = PDict body /\
      Dict.lookup "results" body = Some (PList results) /\
      In (PDict item) results /\
      record_of year (PDict item) = Returned r.
Proof.
  unfold page_records. destruct data as [| | | | | |body]; try discriminate.
  cbn [Dict.get bind].
  destruct (Dict.lookup "results" body) as [results|] eqn:Hres; [|discriminate].
  destruct (Dict.truthy results); [|discriminate].
  destruct (Dict.iter results) as [items|e] eqn:Hiter; cbn [bind]; [|discriminate].
  destruct (traverse (record_of year) items) as [recs'|e] eqn:Ht; cbn [bind]; [|discriminate].
  intros H; inversion H; subst; clear H. intros r Hr.
  apply traverse_Forall2 in Ht.
  assert (Hitem : exists item, In item items /\ record_of year item = Returned r).
  { clear Hiter. induction Ht as [|a b l l' Hab _ IH]; [contradiction|].
    destruct Hr as [->|Hr]; [exists a; simpl; auto|].
    destruct (IH Hr) as [item [Hin Hrec]]. exists item. simpl; auto. }
  destruct Hitem as [item [Hin Hrec]].
  destruct (record_of_fields _ _ _ Hrec) as [d [-> _]].
  destruct results as [| | | |s|l|kvs]; try discriminate; simpl in Hiter;
    inversion Hiter; subst; clear Hiter.
  - apply in_map_iff in Hin. destruct Hin as [c [Hc _]]. discriminate.
  - exists body, items, d. auto.
  - apply in_map_iff in Hin. destruct Hin as [kv [Hkv _]]. discriminate.
Qed.

Section RegistryFacts.

Variable get_json : Z -> Z -> option pyval.

Lemma registry_loop_origin (year : Z) (pages : list Z) :
  forall acc asked recs log,
    registry_loop get_json year pages acc asked = (Returned recs, log) ->
    forall r, In r recs -> In r acc \/ from_page get_json year pages r.
Proof.
  induction pages as [|page pages IH]; intros acc asked recs log; simpl.
  - intros H; inversion H; subst. auto.
  - destruct (get_json year page) as [data|] eqn:Hget.
    + destruct (page_records year data) as [[new|]|e] eqn:Hpage.
      * intros Hloop r Hr.
        destruct (IH _ _ _ _ Hloop r Hr) as [Hacc | Hfrom].
        -- apply in_app_or in Hacc. destruct Hacc as [Hacc|Hnew]; [now left|].
           right. destruct (page_records_items _ _ _ Hpage r Hnew)
             as [body [results [item [-> [H1 [H2 H3]]]]]].
           exists page, body, results, item. simpl; auto.
        -- right. destruct Hfrom as [pg [body [results [item [Hin Hrest]]]]].
           exists pg, body, results, item. simpl; auto.
      * intros H; inversion H; subst. auto.
      * discriminate.
    + intros H; inversion H; subst. auto.
Qed.

Lemma record_of_total (year : Z) (item : pyval) :
  item_shaped item = true -> exists rec, record_of year item = Returned rec.
Proof.
  unfold item_shaped, record_of. destruct item as [| | | | | |d]; try discriminate.
  cbn [Dict.get bind].
  destruct (Dict.lookup "agencies" d) as [ags|].
  - destruct ags as [| | | | |l|]; try discriminate. intros Hall.
    rewrite agency_names_kept. cbn [bind].
    assert (Hk : Forall (fun n => is_text n = true) (map name_of (filter name_bearing l))).
    { apply kept_names_text. apply Forall_forall. intros e He Hb.
      rewrite forallb_forall in Hall. specialize (Hall e He).
      now rewrite Hb in Hall. }
    unfold agency_field.
    destruct (map name_of (filter name_bearing l)) as [|n names] eqn:Hm.
    + cbn. eexists; reflexivity.
    + rewrite (join_texts ", " _ Hk). cbn. eexists; reflexivity.
  - intros _. cbn. eexists; reflexivity.
Qed.

Lemma page_records_total (year : Z) (data : pyval) :
  body_shaped data = true -> exists o, page_records year data = Returned o.
Proof.
  unfold body_shaped, page_records. destruct data as [| | | | | |body]; try discriminate.
  cbn [Dict.get bind].
  destruct (Dict.lookup "results" body) as [results|].
  - destruct (Dict.truthy results) eqn:Ht; cbn [negb orb]; [|intros _; eexists; reflexivity].
    destruct results as [| | | | |items|]; try discriminate. intros Hall.
    cbn [Dict.iter bind].
    destruct (traverse_total (record_of year) items) as [recs Hrecs].
    { apply Forall_forall. intros item Hin. apply record_of_total.
      rewrite forallb_forall in Hall. now apply Hall. }
    rewrite Hrecs. cbn. eexists; reflexivity.
  - intros _. cbn. eexists; reflexivity.
Qed.

Lemma registry_loop_total (year : Z) (pages : list Z) :
  (forall page data, get_json year page = Some data -> body_shaped data = true) ->
  forall acc asked,
  exists recs, fst (registry_loop get_json year pages acc asked) = Returned recs.
Proof.
  intros Hshape. induction pages as [|page pages IH]; intros acc asked; simpl.
  - now exists acc.
  - destruct (get_json year page) as [data|] eqn:Hget; [|now exists acc].
    destruct (page_records_total year data (Hshape _ _ Hget)) as [[new|] Ho];
      rewrite Ho; [apply IH | now exists acc].
Qed.

End RegistryFacts.

(** C8, as the code has it.  Every record the JSON adapter returns for a
    requested year carries that year as [implementation_year], the tag
    "US Federal Register" as [source], and as [source_url] the "html_url"
    entry (null when absent) of the result item it was built from, an item
    of one of the pages requested; its name is that item's "title". *)
Theorem registry_records_stamped
        (get_json : Z -> Z -> option pyval) (year max_pages : Z)
        (recs : list PolicyRecord) (r : PolicyRecord)
        (Hret : extract_environment_policies get_json year max_pages = Returned recs)
        (Hin : In r recs) :
  implementation_year r = year /\
  source r = "US Federal Register" /\
  exists page body results item,
    In page (range1 max_pages) /\
    get_json year page = Some (PDict body) /\
    Dict.lookup "results" body = Some (PList results) /\
    In (PDict item) results /\
    source_url r = entry_or_none "html_url" item /\
    policy_name r = entry_or_none "title" item.
Proof.
  unfold extract_environment_policies, registry_run in Hret.
  destruct (registry_loop get_json year (range1 max_pages) [] []) as [o log] eqn:Hloop.
  simpl in Hret. subst o.
  destruct (registry_loop_origin get_json year _ _ _ _ _ Hloop r Hin) as [[]|Hfrom].
  destruct Hfrom as [page [body [results [item [Hpage [Hget [Hres [Hitem Hrec]]]]]]]].
  destruct (record_of_fields _ _ _ Hrec) as [d [Hd [Hname [_ [Hyear [Hsrc Hurl]]]]]].
  inversion Hd; subst d.
  split; [exact Hyear|]. split; [exact Hsrc|].
  exists page, body, results, item. auto 10.
Qed.

Lemma registry_records_stamped_witness :
  extract_environment_policies (one_page epa_body) 2020 3 = Returned [epa_record] /\
  implementation_year epa_record = 2020%Z /\
  source epa_record = "US Federal Register".
Proof.
  split; [reflexivity|].
  destruct (registry_records_stamped (one_page epa_body) 2020 3 [epa_record] epa_record
                                     eq_refl (or_introl eq_refl)) as [Hy [Hs _]].
  exact (conj Hy Hs).
Defined.

(** C8 as stated fails: the source tag of a returned record is the text
    "US Federal Register", not "registry". *)
Lemma registry_source_tag :
  exists r,
    extract_environment_policies (one_page epa_body) 2020 3 = Returned [r] /\
    source r = "US Federal Register" /\
    String.eqb (source r) "registry" = false.
Proof.
  exists epa_record. repeat split.
Qed.

(** C9, as the code has it.  A failed request or an undecodable body ends
    the harvest without an exception, and the call returns whenever every
    decoded body has the expected shape: a dictionary whose "results", when
    present and not falsy, is a list of dictionaries, each with "agencies"
    absent or a list whose name-bearing entries bear text. *)
Theorem registry_returns_on_shaped_bodies
        (get_json : Z -> Z -> option pyval) (year max_pages : Z)
        (Hshape : forall page data,
            get_json year page = Some data -> body_shaped data = true) :
  exists recs, extract_environment_policies get_json year max_pages = Returned recs.
Proof.
  unfold extract_environment_policies, registry_run.
  now apply registry_loop_total.
Qed.

Lemma registry_returns_on_shaped_bodies_witness :
  body_shaped epa_body = true /\
  exists recs, extract_environment_policies (one_page epa_body) 2020 3 = Returned recs.
Proof.
  split; [reflexivity|].
  apply (registry_returns_on_shaped_bodies (one_page epa_body) 2020 3).
  intros page data. unfold one_page.
  destruct (page =? 1)%Z; intros H; [|discriminate H].
  inversion H. reflexivity.
Defined.

(** C9 as stated fails: a decoded body that is a list, a result item that
    is a number, and a result item whose "agencies" is null each make the
    call raise to its caller. *)
Lemma registry_raises_on_malformed_body :
  extract_environment_policies (one_page (PList [])) 2020 3 = Raised AttributeError /\
  extract_environment_policies (one_page (PDict [("results", PList [PInt 1])])) 2020 3
    = Raised AttributeError /\
  extract_environment_policies (one_page null_agencies_body) 2020 3 = Raised TypeError.
Proof.
  repeat split.
Qed.

(* ================================================================== *)
(** * The policy overlay *)

Lemma eq_int_true (v : value) (n : Z) :
  Frame.eq_int v n = true <-> exists q, v = VNum q /\ (q == inject_Z n)%Q.
Proof.
  destruct v as [|q|s]; simpl.
  - split; [discriminate | intros [q [H _]]; discriminate].
  - rewrite Qeq_bool_iff. split.
    + intros H. now exists q.
    + intros [q' [H Hq]]. now inversion H; subst.
  - split; [discriminate | intros [q [H _]]; discriminate].
Qed.

Lemma filter_idem {A : Type} (p : A -> bool) (l : list A) :
  filter p (filter p l) = filter p l.
Proof.
  induction l as [|a l IH]; simpl; [reflexivity|].
  destruct (p a) eqn:Hp; simpl; [now rewrite Hp, IH | exact IH].
Qed.

Lemma filter_both {A : Type} (p q : A -> bool) (l : list A) :
  filter q (filter p l) = filter (fun a => p a && q a) l.
Proof.
  induction l as [|a l IH]; simpl; [reflexivity|].
  destruct (p a); simpl; [|exact IH].
  destruct (q a); now rewrite IH.
Qed.

(** C6.  Filtering by the policy year keeps exactly the records whose
    implementation_year equals that year; filtering twice by the same year
    changes nothing more; and the set shown is the first five, in table
    order, of the records that match the year (and the country, when the
    table has a Country column). *)
Theorem matched_policies_first_five
        (country_contains : string -> value -> bool)
        (policy_df : DataFrame) (policy_year : Z) (country : string)
        (shown : DataFrame)
        (Hshown : policy_year_df country_contains policy_df policy_year country
                  = Returned (Some shown)) :
  (forall r,
      In r (rows (filter_year policy_df policy_year)) <->
      In r (rows policy_df) /\
      exists q, Frame.cell (columns policy_df) r "implementation_year" = VNum q /\
                (q == inject_Z policy_year)%Q) /\
  filter_year (filter_year policy_df policy_year) policy_year =
    filter_year policy_df policy_year /\
  (let matched := filter_country country_contains
                    (filter_year policy_df policy_year) country in
   rows matched =
     filter (fun r =>
               Frame.eq_int (Frame.cell (columns policy_df) r "implementation_year") policy_year &&
               (if Frame.has_column "Country" (columns policy_df)
                then country_contains country (Frame.cell (columns policy_df) r "Country")
                else true))
            (rows policy_df) /\
   rows shown = firstn 5 (rows matched) /\
   (exists rest, rows matched = rows shown ++ rest) /\
   (List.length (rows shown) <= 5)%nat) /\
  (forall r,
      In r (rows shown) ->
      In r (rows policy_df) /\
      exists q, Frame.cell (columns policy_df) r "implementation_year" = VNum q /\
                (q == inject_Z policy_year)%Q).
Proof.
  assert (Hyear : forall r,
             In r (rows (filter_year policy_df policy_year)) <->
             In r (rows policy_df) /\
             exists q, Frame.cell (columns policy_df) r "implementation_year" = VNum q /\
                       (q == inject_Z policy_year)%Q).
  { intros r. unfold filter_year. cbn [Frame.select rows].
    rewrite filter_In, eq_int_true. reflexivity. }
  assert (Hmatched :
            rows (filter_country country_contains (filter_year policy_df policy_year) country) =
            filter (fun r =>
                      Frame.eq_int (Frame.cell (columns policy_df) r "implementation_year")
                                   policy_year &&
                      (if Frame.has_column "Country" (columns policy_df)
                       then country_contains country (Frame.cell (columns policy_df) r "Country")
                       else true))
                   (rows policy_df)).
  { unfold filter_country, filter_year. cbn [Frame.select rows columns].
    destruct (Frame.has_column "Country" (columns policy_df)); cbn [rows].
    - apply filter_both.
    - apply filter_ext. intros r. now rewrite andb_true_r. }
  assert (Hrows : rows shown =
                  firstn 5 (rows (filter_country country_contains
                                    (filter_year policy_df policy_year) country))).
  { unfold policy_year_df in Hshown.
    destruct (Frame.empty policy_df); [discriminate|].
    destruct (Frame.has_column "implementation_year" (columns policy_df)); [|discriminate].
    inversion Hshown. reflexivity. }
  split; [exact Hyear|]. split; [|split].
  - unfold filter_year at 1 3. unfold Frame.select. cbn [columns rows].
    unfold filter_year. cbn [Frame.select columns rows]. now rewrite filter_idem.
  - cbv zeta. split; [exact Hmatched|]. split; [exact Hrows|]. split.
    + exists (skipn 5 (rows (filter_country country_contains
                               (filter_year policy_df policy_year) country))).
      rewrite Hrows. symmetry. apply firstn_skipn.
    + rewrite Hrows. apply firstn_le_length.
  - intros r Hr. rewrite Hrows, Hmatched in Hr.
    match type of Hr with
    | In _ (firstn ?n ?l) =>
        assert (Hr' : In r l)
          by (rewrite <- (firstn_skipn n l); apply in_or_app; now left)
    end.
    clear Hr. apply filter_In in Hr'. destruct Hr' as [Hin Hb].
    apply andb_true_iff in Hb. destruct Hb as [Hy _].
    split; [exact Hin | now apply eq_int_true].
Qed.

Lemma matched_policies_first_five_witness :
  policy_year_df any_country seven_policies 2015 "X" =
    Returned (Some (mkDF ["policy_name"; "implementation_year"]
                         [policy_row "P1" 2015; policy_row "P3" 2015; policy_row "P4" 2015;
                          policy_row "P5" 2015; policy_row "P6" 2015])) /\
  filter_year (filter_year seven_policies 2015) 2015 = filter_year seven_policies 2015.
Proof.
  split; [reflexivity|].
  exact (proj1 (proj2 (matched_policies_first_five
                         any_country seven_policies 2015 "X" _ eq_refl))).
Defined.


(* ================================================================== *)
(** * Further properties: the page loops *)

Lemma harvest_loop_shape (read_html : Z -> option DataFrame) (pages : list Z) :
  forall acc asked,
  exists pre rest dfs,
    pages = pre ++ rest /\
    Forall2 (fun p df => read_html (p * 50)%Z = Some df) pre dfs /\
    harvest_loop read_html pages acc asked =
      (acc ++ dfs, asked ++ map (fun p => (p * 50)%Z) (pre ++ firstn 1 rest)) /\
    match rest with
    | [] => True
    | p :: _ => read_html (p * 50)%Z = None
    end.
Proof.
  induction pages as [|page pages IH]; intros acc asked.
  - exists [], [], []. simpl. rewrite !app_nil_r. repeat split; auto using Forall2_nil.
  - simpl. destruct (read_html (page * 50)%Z) as [df|] eqn:Hread.
    + destruct (IH (acc ++ [df]) (asked ++ [(page * 50)%Z]))
        as [pre [rest [dfs [Hp [Hok [Hrun Hstop]]]]]].
      exists (page :: pre), rest, (df :: dfs). subst pages.
      split; [reflexivity|]. split; [now constructor|]. split; [|exact Hstop].
      rewrite Hrun. simpl. now rewrite <- !app_assoc.
    + exists [], (page :: pages), []. simpl. rewrite app_nil_r.
      repeat split; auto using Forall2_nil.
Qed.

Lemma range_nonpositive (n : Z) : (n <= 0)%Z -> range n = [] /\ range1 n = [].
Proof.
  intros Hn. unfold range, range1.
  replace (Z.to_nat n) with O by lia. split; reflexivity.
Qed.

(** X1.  The table adapter asks for an initial segment of the pages
    0 .. max_pages - 1, at offsets 50 apart and in order; it keeps the table
    of every page asked except a last one that failed; it stops early only
    on a failure; it never asks for more than [max_pages] pages, and for
    none when [max_pages] is not positive. *)
Theorem harvest_initial_segment (read_html : Z -> option DataFrame) (max_pages : Z) :
  (exists pre rest,
      range max_pages = pre ++ rest /\
      Forall2 (fun p df => read_html (p * 50)%Z = Some df) pre (all_dfs read_html max_pages) /\
      snd (harvest read_html max_pages) = map (fun p => (p * 50)%Z) (pre ++ firstn 1 rest) /\
      match rest with
      | [] => True
      | p :: _ => read_html (p * 50)%Z = None
      end) /\
  (List.length (snd (harvest read_html max_pages)) <= Z.to_nat max_pages)%nat /\
  (List.length (all_dfs read_html max_pages)
   <= List.length (snd (harvest read_html max_pages)))%nat /\
  ((max_pages <= 0)%Z -> harvest read_html max_pages = ([], [])).
Proof.
  unfold all_dfs, harvest.
  destruct (harvest_loop_shape read_html (range max_pages) [] [])
    as [pre [rest [dfs [Hp [Hok [Hrun Hstop]]]]]].
  rewrite Hrun. cbn [fst snd app].
  assert (Hlen : List.length (range max_pages) = Z.to_nat max_pages).
  { unfold range. now rewrite length_map, length_seq. }
  split; [|split; [|split]].
  - exists pre, rest. auto.
  - rewrite length_map, <- Hlen, Hp, !length_app.
    destruct rest; simpl; lia.
  - rewrite length_map, length_app, <- (Forall2_length Hok). lia.
  - intros Hn. destruct (range_nonpositive max_pages Hn) as [Hr _].
    rewrite Hr in Hp. destruct pre; [|discriminate]. simpl in Hp. subst rest.
    inversion Hok. reflexivity.
Qed.

Lemma chars_nonempty (c : ascii) (s : string) : Py.chars (String c s) <> [].
Proof.
  simpl. destruct (Py.chars s) as [|[|d ch] rest]; try discriminate.
  destruct (Py.continuation d); discriminate.
Qed.

(** A page adds one record per item of its result list, in order, and the
    list is not empty. *)
Lemma page_records_one_per_item (year : Z) (data : pyval) (recs : list PolicyRecord) :
  page_records year data = Returned (Some recs) ->
  exists body items,
    data = PDict body /\
    Dict.lookup "results" body = Some (PList items) /\
    items <> [] /\
    Forall2 (fun item r => record_of year item = Returned r) items recs.
Proof.
  unfold page_records. destruct data as [| | | | | |body]; try discriminate.
  cbn [Dict.get bind].
  destruct (Dict.lookup "results" body) as [results|] eqn:Hres; [|discriminate].
  destruct (Dict.truthy results) eqn:Htruthy; [|discriminate].
  destruct (Dict.iter results) as [items|e] eqn:Hiter; cbn [bind]; [|discriminate].
  destruct (traverse (record_of year) items) as [recs'|e] eqn:Ht; cbn [bind]; [|discriminate].
  intros H; inversion H; subst; clear H.
  apply traverse_Forall2 in Ht.
  destruct results as [| | | |s|l|kvs]; try discriminate; simpl in Hiter;
    inversion Hiter; subst; clear Hiter.
  - destruct s as [|c s]; [discriminate|].
    destruct (Py.chars (String c s)) as [|ch chs] eqn:Hch;
      [now apply chars_nonempty in Hch|].
    simpl in Ht. inversion Ht as [|? ? ? ? Hbad]; subst. discriminate.
  - exists body, items. repeat split; auto.
    intros ->. discriminate.
  - destruct kvs as [|kv kvs]; [discriminate|]. simpl in Ht.
    inversion Ht as [|? ? ? ? Hbad]; subst. discriminate.
Qed.

Lemma page_records_break (year : Z) (data : pyval) :
  page_records year data = Returned None <-> zero_results data.
Proof.
  split; [|apply zero_results_break].
  unfold page_records, zero_results. destruct data as [| | | | | |body]; try discriminate.
  cbn [Dict.get bind]. intros H. exists body. split; [reflexivity|].
  destruct (Dict.lookup "results" body) as [results|].
  - destruct (Dict.truthy results); [|reflexivity].
    destruct (Dict.iter results) as [items|e]; cbn [bind] in H; [|discriminate].
    destruct (traverse (record_of year) items); discriminate.
  - exact I.
Qed.

Lemma registry_loop_shape (get_json : Z -> Z -> option pyval) (year : Z) (pages : list Z) :
  forall acc asked,
  exists pre rest recss,
    pages = pre ++ rest /\
    Forall2 (fun p recs => exists data,
                 get_json year p = Some data /\
                 page_records year data = Returned (Some recs)) pre recss /\
    snd (registry_loop get_json year pages acc asked) = asked ++ pre ++ firstn 1 rest /\
    match rest with
    | [] => fst (registry_loop get_json year pages acc asked)
            = Returned (acc ++ List.concat recss)
    | p :: _ =>
        match get_json year p with
        | None => fst (registry_loop get_json year pages acc asked)
                  = Returned (acc ++ List.concat recss)
        | Some data =>
            match page_records year data with
            | Returned None => fst (registry_loop get_json year pages acc asked)
                               = Returned (acc ++ List.concat recss)
            | Raised e => fst (registry_loop get_json year pages acc asked) = Raised e
            | Returned (Some _) => False
            end
        end
    end.
Proof.
  induction pages as [|page pages IH]; intros acc asked.
  - exists [], [], []. simpl. rewrite !app_nil_r. repeat split; auto using Forall2_nil.
  - simpl. destruct (get_json year page) as [data|] eqn:Hget.
    + destruct (page_records year data) as [[new|]|e] eqn:Hpage.
      * destruct (IH (acc ++ new) (asked ++ [page]))
          as [pre [rest [recss [Hp [Hok [Hlog Hend]]]]]].
        exists (page :: pre), rest, (new :: recss). subst pages.
        split; [reflexivity|]. split.
        { constructor; [now exists data | exact Hok]. }
        split; [rewrite Hlog; simpl; now rewrite <- !app_assoc|].
        simpl. rewrite app_assoc. exact Hend.
      * exists [], (page :: pages), []. simpl. rewrite Hget, Hpage, app_nil_r.
        repeat split; auto using Forall2_nil.
      * exists [], (page :: pages), []. simpl. rewrite Hget, Hpage.
        repeat split; auto using Forall2_nil.
    + exists [], (page :: pages), []. simpl. rewrite Hget, app_nil_r.
      repeat split; auto using Forall2_nil.
Qed.

Lemma registry_run_shape
      (get_json : Z -> Z -> option pyval) (year max_pages : Z) :
  exists pre rest recss,
    range1 max_pages = pre ++ rest /\
    Forall2 (fun p recs => exists data,
                 get_json year p = Some data /\
                 page_records year data = Returned (Some recs)) pre recss /\
    snd (registry_run get_json year max_pages) = pre ++ firstn 1 rest /\
    match rest with
    | [] => extract_environment_policies get_json year max_pages
            = Returned (List.concat recss)
    | p :: _ =>
        match get_json year p with
        | None => extract_environment_policies get_json year max_pages
                  = Returned (List.concat recss)
        | Some data =>
            match page_records year data with
            | Returned None => extract_environment_policies get_json year max_pages
                               = Returned (List.concat recss)
            | Raised e => extract_environment_policies get_json year max_pages = Raised e
            | Returned (Some _) => False
            end
        end
    end.
Proof.
  unfold extract_environment_policies, registry_run.
  destruct (registry_loop_shape get_json year (range1 max_pages) [] [])
    as [pre [rest [recss [Hp [Hok [Hlog Hend]]]]]].
  cbn [app] in Hlog, Hend. exists pre, rest, recss. auto.
Qed.

(** X2.  The JSON adapter asks for an initial segment of the pages
    1 .. max_pages in order and for none twice; every page before the last
    one asked gave records, which the result lists in page order; the loop
    stops early only on a failed request, a page without results, or an
    exception; and it never asks for more than [max_pages] pages. *)
Theorem registry_initial_segment
        (get_json : Z -> Z -> option pyval) (year max_pages : Z) :
  (exists pre rest recss,
      range1 max_pages = pre ++ rest /\
      Forall2 (fun p recs => exists data,
                   get_json year p = Some data /\
                   page_records year data = Returned (Some recs)) pre recss /\
      snd (registry_run get_json year max_pages) = pre ++ firstn 1 rest /\
      match rest with
      | [] => extract_environment_policies get_json year max_pages
              = Returned (List.concat recss)
      | p :: _ =>
          match get_json year p with
          | None => extract_environment_policies get_json year max_pages
                    = Returned (List.concat recss)
          | Some data =>
              match page_records year data with
              | Returned None => extract_environment_policies get_json year max_pages
                                 = Returned (List.concat recss)
              | Raised e => extract_environment_policies get_json year max_pages = Raised e
              | Returned (Some _) => False
              end
          end
      end) /\
  (List.length (snd (registry_run get_json year max_pages)) <= Z.to_nat max_pages)%nat /\
  NoDup (snd (registry_run get_json year max_pages)).
Proof.
  destruct (registry_run_shape get_json year max_pages)
    as [pre [rest [recss [Hp [Hok [Hlog Hend]]]]]].
  assert (Hlen : List.length (range1 max_pages) = Z.to_nat max_pages).
  { unfold range1. now rewrite length_map, length_seq. }
  assert (Hnd : NoDup (range1 max_pages)).
  { unfold range1. apply Finite.Injective_map_NoDup; [|apply seq_NoDup].
    intros a b Hab. lia. }
  split; [|split].
  - exists pre, rest, recss. auto.
  - rewrite Hlog, <- Hlen, Hp, !length_app. destruct rest; simpl; lia.
  - rewrite Hlog. rewrite Hp in Hnd. destruct rest as [|p rest]; simpl.
    + now rewrite app_nil_r in *.
    + apply NoDup_remove_1 in Hnd as Hpre.
      apply NoDup_remove_2 in Hnd.
      apply NoDup_app_remove_r in Hpre.
      assert (Hdisj : NoDup (p :: pre)).
      { constructor; [|exact Hpre]. intros Hin. apply Hnd. apply in_or_app. now left. }
      eapply Permutation_NoDup; [|exact Hdisj].
      apply Permutation_cons_append.
Qed.

Lemma length_concat_bound {A : Type} (n : nat) (ls : list (list A)) :
  Forall (fun l => (List.length l <= n)%nat) ls ->
  (List.length (List.concat ls) <= n * List.length ls)%nat.
Proof.
  induction 1 as [|l ls Hl _ IH]; simpl; [lia|].
  rewrite length_app. lia.
Qed.

(** X3.  When the service honours the page size asked for (at most 100 results
    a page), a harvest holds at most 100 records for each page of the
    limit. *)
Theorem registry_record_bound
        (get_json : Z -> Z -> option pyval) (year max_pages : Z)
        (recs : list PolicyRecord)
        (Hcap : forall page body items,
            get_json year page = Some (PDict body) ->
            Dict.lookup "results" body = Some (PList items) ->
            (List.length items <= 100)%nat)
        (Hret : extract_environment_policies get_json year max_pages = Returned recs) :
  (List.length recs <= 100 * Z.to_nat max_pages)%nat.
Proof.
  destruct (registry_run_shape get_json year max_pages)
    as [pre [rest [recss [Hp [Hok [Hlog Hend]]]]]].
  assert (Hrecs : recs = List.concat recss).
  { rewrite Hret in Hend. destruct rest as [|p rest].
    - now inversion Hend.
    - destruct (get_json year p) as [data|]; [|now inversion Hend].
      destruct (page_records year data) as [[new|]|e];
        [contradiction | now inversion Hend | discriminate]. }
  subst recs.
  assert (Hall : Forall (fun l : list PolicyRecord => (List.length l <= 100)%nat) recss).
  { clear - Hok Hcap. induction Hok as [|p new pre recss [data [Hget Hpage]] _ IH];
      constructor; [|exact IH].
    destruct (page_records_one_per_item _ _ _ Hpage) as [body [items [-> [Hres [_ Hf]]]]].
    rewrite <- (Forall2_length Hf). eapply Hcap; eauto. }
  pose proof (length_concat_bound 100 recss Hall) as Hb.
  assert (Hpre : (List.length recss <= Z.to_nat max_pages)%nat).
  { rewrite <- (Forall2_length Hok).
    assert (Hr : List.length (range1 max_pages) = Z.to_nat max_pages)
      by (unfold range1; now rewrite length_map, length_seq).
    rewrite <- Hr, Hp, length_app. lia. }
  nia.
Qed.

Lemma registry_record_bound_witness :
  extract_environment_policies (one_page epa_body) 2020 3 = Returned [epa_record] /\
  (List.length [epa_record] <= 100 * Z.to_nat 3)%nat.
Proof.
  split; [reflexivity|].
  apply (registry_record_bound (one_page epa_body) 2020 3 [epa_record]); [|reflexivity].
  intros page body items. unfold one_page.
  destruct (page =? 1)%Z; intros H; [|discriminate H].
  inversion H; subst body. intros H'. inversion H'; subst items. simpl. lia.
Defined.

(** X4.  What the second tab reports: "no policies" exactly when the first page
    could not be fetched or had no results; otherwise the number of records
    harvested, which is at least one; and an exception of the harvest
    reaches the caller. *)
Theorem tab2_report_cases (get_json : Z -> Z -> option pyval) (year : Z) :
  match tab2_report get_json year with
  | Returned (NoPolicies y) =>
      y = year /\
      extract_environment_policies get_json year 3 = Returned [] /\
      (get_json year 1%Z = None \/
       exists data, get_json year 1%Z = Some data /\ zero_results data)
  | Returned (Found n y) =>
      y = year /\ (1 <= n)%nat /\
      (exists recs, extract_environment_policies get_json year 3 = Returned recs /\
                    n = List.length recs) /\
      exists data first,
        get_json year 1%Z = Some data /\
        page_records year data = Returned (Some first) /\ first <> []
  | Raised e => extract_environment_policies get_json year 3 = Raised e
  end.
Proof.
  unfold tab2_report.
  destruct (registry_run_shape get_json year 3)
    as [pre [rest [recss [Hp [Hok [_ Hend]]]]]].
  change (range1 3) with [1; 2; 3]%Z in Hp.
  destruct Hok as [|p new pre recss [data [Hget Hpage]] Hok].
  - simpl in Hp. subst rest. cbn [List.concat] in Hend.
    destruct (get_json year 1%Z) as [data|] eqn:Hget.
    + destruct (page_records year data) as [[new|]|e] eqn:Hpage; [contradiction| |].
      * rewrite Hend. cbn [bind]. repeat split.
        right. exists data. split; [reflexivity | now apply (page_records_break year data)].
      * rewrite Hend. reflexivity.
    + rewrite Hend. cbn [bind]. repeat split. now left.
  - inversion Hp; subst p.
    destruct (page_records_one_per_item _ _ _ Hpage) as [body [items [_ [_ [Hne Hf]]]]].
    assert (Hnew : new <> []).
    { intros ->. inversion Hf. now subst. }
    assert (Hout : extract_environment_policies get_json year 3
                   = Returned (new ++ List.concat recss) \/
                   exists e, extract_environment_policies get_json year 3 = Raised e).
    { cbn [List.concat] in Hend. destruct rest as [|q rest]; [now left|].
      destruct (get_json year q) as [d|]; [|now left].
      destruct (page_records year d) as [[more|]|e];
        [contradiction | now left | right; now exists e]. }
    destruct Hout as [Hout | [e Hout]]; rewrite Hout; cbn [bind]; [|reflexivity].
    destruct (new ++ List.concat recss) as [|r recs] eqn:Hcat.
    + destruct new; [now elim Hnew | discriminate].
    + split; [reflexivity|]. split; [simpl; lia|]. split.
      * now exists (r :: recs).
      * now exists data, new.
Qed.

(* ------------------------------------------------------------------ *)
(** ** One record *)

Lemma join_outcome (sep : string) (names : list pyval) :
  Dict.join sep names =
  if forallb is_text names
  then Returned (Py.join sep (map text_of names))
  else Raised TypeError.
Proof.
  unfold Dict.join.
  assert (Ht : traverse (fun v => match v with
                                  | PStr s => Returned s
                                  | _ => Raised TypeError
                                  end) names =
               if forallb is_text names
               then Returned (map text_of names)
               else Raised TypeError).
  { induction names as [|n names IH]; [reflexivity|].
    cbn [traverse forallb map]. destruct n; cbn [is_text andb bind]; try reflexivity.
    rewrite IH. destruct (forallb is_text names); reflexivity. }
  rewrite Ht. destruct (forallb is_text names); reflexivity.
Qed.

Lemma kept_names_forallb (l : list pyval) :
  forallb is_text (map name_of (filter name_bearing l)) =
  forallb (fun e => negb (name_bearing e) || is_text (name_of e)) l.
Proof.
  induction l as [|e l IH]; [reflexivity|].
  cbn [filter forallb]. destruct (name_bearing e); cbn [map forallb negb orb];
    now rewrite IH.
Qed.

Lemma agency_names_of_texts (items : list pyval) :
  Forall (fun v => is_text v = true) items ->
  flat_map (fun agency =>
              match agency with
              | PDict d => match Dict.lookup "name" d with
                           | Some n => [n]
                           | None => []
                           end
              | _ => []
              end) items = [].
Proof.
  induction 1 as [|v items Hv _ IH]; [reflexivity|].
  destruct v; try discriminate. simpl. exact IH.
Qed.

(** X5.  The record built from a result item, in closed form.  An item that is
    not a dictionary raises [AttributeError]; a dictionary is accepted
    unless its "agencies" is a value that cannot be iterated or a list
    bearing a name that is not text, in which case [TypeError] is raised;
    an accepted item gives its title, type and URL (null when absent), the
    requested year, the fixed source tag, and as agency the ", "-joined
    names of a list of agencies, or "N/A" when no name is kept (also when
    "agencies" is a dictionary or a text). *)
Theorem record_of_closed_form (year : Z) (item : pyval) :
  match item with
  | PDict d =>
      record_of year item =
      if item_accepted item
      then Returned
             (mkRecord (entry_or_none "title" d) (entry_or_none "type" d) year
                (match Dict.lookup "agencies" d with
                 | Some (PList l) =>
                     match filter name_bearing l with
                     | [] => "N/A"
                     | kept => Py.join ", " (map text_of (map name_of kept))
                     end
                 | _ => "N/A"
                 end)
                "US Federal Register" (entry_or_none "html_url" d))
      else Raised TypeError
  | _ => item_accepted item = false /\ record_of year item = Raised AttributeError
  end.
Proof.
  destruct item as [| | | | | |d]; try (split; reflexivity).
  unfold record_of, item_accepted, entry_or_none. cbn [Dict.get bind].
  destruct (Dict.lookup "agencies" d) as [ags|].
  - destruct ags as [| | | |s|l|kvs]; try reflexivity.
    + unfold agency_names. cbn [Dict.iter bind].
      rewrite agency_names_of_texts; [reflexivity|].
      apply Forall_forall. intros v Hv. apply in_map_iff in Hv.
      destruct Hv as [c [<- _]]. reflexivity.
    + rewrite agency_names_kept. cbn [bind]. unfold agency_field.
      rewrite <- kept_names_forallb.
      destruct (filter name_bearing l) as [|e kept]; [reflexivity|].
      rewrite join_outcome.
      destruct (forallb is_text (map name_of (e :: kept))); reflexivity.
    + unfold agency_names. cbn [Dict.iter bind].
      rewrite agency_names_of_texts; [reflexivity|].
      apply Forall_forall. intros v Hv. apply in_map_iff in Hv.
      destruct Hv as [kv [<- _]]. reflexivity.
  - reflexivity.
Qed.

(* ================================================================== *)
(** * Further properties: the normaliser and the policy markers *)

(** X6.  Normalisation touches one column only.  When a year column is detected
    and the call returns, the result has the rows of all harvested pages,
    in order, and as many columns as the concatenated table; the label of
    the detected column becomes "implementation_year", a label "Policy"
    becomes "policy_name" and every other label is kept; and in every row
    each cell outside the detected column is unchanged. *)
Theorem normalize_only_year_column
        (to_numeric_str : string -> option Q) (repr_num : Q -> string)
        (dfs : list DataFrame) (yc : string) (out : DataFrame)
        (Hyc : year_col (columns (cpd_df dfs)) = Some yc)
        (Hret : normalize to_numeric_str repr_num dfs = Returned out) :
  exists i,
    Frame.position yc (columns (cpd_df dfs)) = Some i /\
    columns out = map (rename_label yc) (columns (cpd_df dfs)) /\
    (forall c, c <> yc -> c <> "Policy" -> rename_label yc c = c) /\
    List.length (rows out) = list_sum (map (fun df => List.length (rows df)) dfs) /\
    Forall2 (fun raw r =>
               List.length r = List.length raw /\
               forall j, j <> i -> nth j r VNull = nth j raw VNull)
            (rows (cpd_df dfs)) (rows out).
Proof.
  assert (Hne : dfs <> []).
  { intros ->. discriminate Hyc. }
  unfold normalize in Hret. destruct dfs as [|d0 dfs0]; [contradiction|].
  set (dfs := d0 :: dfs0) in *. rewrite Hyc in Hret.
  destruct (count_occ string_dec (columns (cpd_df dfs)) yc =? 1)%nat; [|discriminate].
  inversion Hret; subst out; clear Hret.
  pose proof (find_some _ _ Hyc) as [Hin _].
  destruct (position_In _ _ Hin) as [i Hi].
  exists i. unfold Frame.map_column. rewrite Hi. unfold Frame.rename. cbn [columns rows].
  split; [reflexivity|]. split; [reflexivity|]. split; [|split].
  - intros c Hc Hp. unfold rename_label.
    destruct (String.eqb c yc) eqn:E1; [apply String.eqb_eq in E1; contradiction|].
    destruct (String.eqb c "Policy") eqn:E2; [apply String.eqb_eq in E2; contradiction|].
    reflexivity.
  - rewrite length_map. unfold cpd_df. cbn [rows]. apply rows_concat_count.
  - apply Forall2_map_self. intros raw _. split.
    + apply length_update_nth.
    + intros j Hj. apply nth_update_nth_other. congruence.
Qed.

Lemma normalize_only_year_column_witness :
  year_col (columns (cpd_df [padded_page])) = Some "Start year" /\
  exists i,
    Frame.position "Start year" (columns (cpd_df [padded_page])) = Some i /\
    columns (mkDF ["policy_name"; "implementation_year"]
                  [[VStr "Plan A"; VNum (inject_Z 2015)]])
    = map (rename_label "Start year") (columns (cpd_df [padded_page])).
Proof.
  split; [reflexivity|].
  destruct (normalize_only_year_column decimal_cell decimal_repr [padded_page]
              "Start year" _ eq_refl eq_refl) as [i [Hi [Hc _]]].
  exists i. split; [exact Hi | exact Hc].
Defined.

(** The frame shown keeps the columns of the policy table, and each of its
    rows is a row of the table whose year matches. *)
Lemma shown_rows_match (country_contains : string -> value -> bool)
      (policy_df : DataFrame) (policy_year : Z) (country : string) (shown : DataFrame) :
  policy_year_df country_contains policy_df policy_year country = Returned (Some shown) ->
  columns shown = columns policy_df /\
  Frame.has_column "implementation_year" (columns policy_df) = true /\
  (List.length (rows shown) <= 5)%nat /\
  forall r, In r (rows shown) ->
            In r (rows policy_df) /\
            Frame.eq_int (Frame.cell (columns policy_df) r "implementation_year") policy_year
            = true.
Proof.
  unfold policy_year_df. destruct (Frame.empty policy_df); [discriminate|].
  destruct (Frame.has_column "implementation_year" (columns policy_df)) eqn:Hcol;
    [|discriminate].
  intros H; inversion H; subst shown; clear H.
  unfold Frame.head, filter_country, filter_year.
  cbn [Frame.select columns rows].
  destruct (Frame.has_column "Country" (columns policy_df));
    cbn [Frame.select columns rows]; (split; [reflexivity|]); (split; [reflexivity|]);
    (split; [apply firstn_le_length|]); intros r Hr.
  - assert (Hr' : In r (filter
                          (fun r => country_contains country
                                      (Frame.cell (columns policy_df) r "Country"))
                          (filter
                             (fun r => Frame.eq_int
                                         (Frame.cell (columns policy_df) r "implementation_year")
                                         policy_year)
                             (rows policy_df)))).
    { match type of Hr with
      | In _ (firstn ?n ?l) =>
          rewrite <- (firstn_skipn n l); apply in_or_app; now left
      end. }
    apply filter_In in Hr'. destruct Hr' as [Hr' _]. now apply filter_In in Hr'.
  - assert (Hr' : In r (filter
                          (fun r => Frame.eq_int
                                      (Frame.cell (columns policy_df) r "implementation_year")
                                      policy_year)
                          (rows policy_df))).
    { match type of Hr with
      | In _ (firstn ?n ?l) =>
          rewrite <- (firstn_skipn n l); apply in_or_app; now left
      end. }
    now apply filter_In in Hr'.
Qed.

Lemma traverse_map {A B : Type} (f : A -> outcome B) (g : A -> B) (l : list A) :
  (forall a, In a l -> f a = Returned (g a)) ->
  traverse f l = Returned (map g l).
Proof.
  induction l as [|a l IH]; intros H; simpl; [reflexivity|].
  rewrite (H a (or_introl eq_refl)), IH; [reflexivity|].
  intros b Hb. apply H. now right.
Qed.

Lemma append_empty (s : string) : (s ++ "")%string = s.
Proof.
  induction s as [|c s IH]; simpl; [reflexivity | now rewrite IH].
Qed.

Lemma concat_chars_cons (x : string) (l : list string) :
  String.concat "" (x :: l) = (x ++ String.concat "" l)%string.
Proof.
  destruct l as [|y l]; simpl; [now rewrite append_empty | reflexivity].
Qed.

(** A text is the concatenation of its characters. *)
Lemma concat_chars (s : string) : String.concat "" (Py.chars s) = s.
Proof.
  induction s as [|c s IH]; [reflexivity|].
  cbn [Py.chars]. destruct (Py.chars s) as [|[|d ch] rest] eqn:Hch.
  - simpl in *. now rewrite <- IH.
  - rewrite concat_chars_cons, IH. reflexivity.
  - destruct (Py.continuation d).
    + rewrite concat_chars_cons in *. simpl in *. now rewrite IH.
    + rewrite concat_chars_cons, IH. reflexivity.
Qed.

(** Slicing a text at or past its last character gives the text. *)
Lemma take_all (n : nat) (s : string) :
  (List.length (Py.chars s) <= n)%nat -> Py.take n s = s.
Proof.
  intros H. unfold Py.take. rewrite firstn_all2 by exact H. apply concat_chars.
Qed.

Lemma renamed_policy_name (yc : string) (cols : list string) :
  In "policy_name" (map (rename_label yc) cols) ->
  In "Policy" cols \/ In "policy_name" cols.
Proof.
  rewrite in_map_iff. intros [c [Hc Hin]]. unfold rename_label in Hc.
  destruct (String.eqb c yc); [discriminate|].
  destruct (String.eqb c "Policy") eqn:E.
  - apply String.eqb_eq in E. subst. now left.
  - subst. now right.
Qed.

(** X8.  A harvested table without a column named "Policy" (or "policy_name")
    breaks the first tab as soon as a policy matches the selected year: the
    marker loop and the listing under the chart both raise [KeyError].
    (Stated for a policy table with distinct labels and no "Country"
    column, so that lines 125-133 select rows and do not themselves
    raise.) *)
Theorem markers_need_policy_column
        (to_numeric_str : string -> option Q) (repr_num : Q -> string)
        (country_contains : string -> value -> bool)
        (dfs : list DataFrame) (policy_df : DataFrame)
        (policy_year : Z) (country : string) (shown : DataFrame)
        (Hn : normalize to_numeric_str repr_num dfs = Returned policy_df)
        (Hnd : NoDup (columns policy_df))
        (Hnc : ~ In "Country" (columns policy_df))
        (Hno1 : ~ In "Policy" (columns (cpd_df dfs)))
        (Hno2 : ~ In "policy_name" (columns (cpd_df dfs)))
        (Hshown : policy_year_df country_contains policy_df policy_year country
                  = Returned (Some shown))
        (Hrows : rows shown <> []) :
  policy_markers country_contains policy_df policy_year country = Raised KeyError /\
  policies_table country_contains policy_df policy_year country = Raised KeyError.
Proof.
  destruct (shown_rows_match _ _ _ _ _ Hshown) as [Hc [Hy [_ Hmatch]]].
  assert (Hname : Frame.has_column "policy_name" (columns policy_df) = false).
  { destruct (Frame.has_column "policy_name" (columns policy_df)) eqn:E; [|reflexivity].
    exfalso. apply has_column_In in E.
    destruct dfs as [|d0 dfs0].
    - inversion Hn; subst. contradiction.
    - destruct (year_col (columns (cpd_df (d0 :: dfs0)))) as [yc|] eqn:Hyc.
      + assert (Hne : d0 :: dfs0 <> []) by discriminate.
        destruct (normalize_detected _ _ _ _ _ Hne Hyc Hn) as [Hcols _].
        rewrite Hcols in E. destruct (renamed_policy_name _ _ E); contradiction.
      + unfold normalize in Hn. rewrite Hyc in Hn. inversion Hn; subst. contradiction. }
  unfold policy_markers, policies_table. rewrite Hshown. cbn [bind]. rewrite Hc.
  split.
  - destruct (rows shown) as [|r rs] eqn:Hr; [contradiction|].
    destruct (Hmatch r (or_introl eq_refl)) as [_ Heq].
    apply eq_int_true in Heq. destruct Heq as [q [Hq _]].
    cbn [traverse]. unfold annotate. rewrite Hy, Hq, Hname. reflexivity.
  - unfold Frame.empty. rewrite Hc.
    destruct (columns policy_df) as [|c cs] eqn:Hcols; [discriminate Hy|].
    destruct (rows shown) as [|r rs]; [contradiction|].
    now rewrite Hname.
Qed.

Lemma markers_need_policy_column_witness :
  normalize decimal_cell decimal_repr [untitled_page] = Returned untitled_policies /\
  policy_markers any_country untitled_policies 2015 "X" = Raised KeyError /\
  policies_table any_country untitled_policies 2015 "X" = Raised KeyError.
Proof.
  split; [reflexivity|].
  apply (markers_need_policy_column decimal_cell decimal_repr any_country
           [untitled_page] untitled_policies 2015 "X" untitled_policies).
  - reflexivity.
  - repeat constructor; simpl; intuition discriminate.
  - simpl. intros [H|[H|[]]]; discriminate H.
  - simpl. intros [H|[H|[]]]; discriminate H.
  - simpl. intros [H|[H|[]]]; discriminate H.
  - reflexivity.
  - discriminate.
Defined.

(** X9.  With a "policy_name" column holding text, the marker loop draws one
    marker for each policy shown, at most five: the dotted line stands at
    the policy's year, which is the selected year, and the text is the
    first 35 characters of the name (characters, not bytes) followed by
    three dots, so a name of at most 35 characters is shown whole; the
    listing under the chart has the same policies, and is skipped when
    there is none.  (Stated for a policy table with distinct labels and no
    "Country" column, so that lines 125-133 select rows and do not
    themselves raise.) *)
Theorem markers_when_named
        (country_contains : string -> value -> bool)
        (policy_df : DataFrame) (policy_year : Z) (country : string) (shown : DataFrame)
        (Hshown : policy_year_df country_contains policy_df policy_year country
                  = Returned (Some shown))
        (Hnd : NoDup (columns policy_df))
        (Hnc : ~ In "Country" (columns policy_df))
        (Hcol : In "policy_name" (columns policy_df))
        (Htext : forall r, In r (rows shown) ->
                           exists s, Frame.cell (columns policy_df) r "policy_name" = VStr s) :
  exists marks,
    policy_markers country_contains policy_df policy_year country = Returned marks /\
    (List.length marks <= 5)%nat /\
    Forall2 (fun r m =>
               exists q s,
                 Frame.cell (columns policy_df) r "implementation_year" = VNum q /\
                 (q == inject_Z policy_year)%Q /\
                 Frame.cell (columns policy_df) r "policy_name" = VStr s /\
                 fst (fst m) = VNum q /\
                 snd m = (String.concat "" (firstn 35 (Py.chars s)) ++ "...")%string /\
                 ((List.length (Py.chars s) <= 35)%nat -> snd m = (s ++ "...")%string))
            (rows shown) marks /\
    policies_table country_contains policy_df policy_year country =
      Returned (match rows shown with
                | [] => None
                | _ => Some (map (fun r =>
                                    (Frame.cell (columns policy_df) r "policy_name",
                                     Frame.cell (columns policy_df) r "implementation_year"))
                                 (rows shown))
                end).
Proof.
  destruct (shown_rows_match _ _ _ _ _ Hshown) as [Hc [Hy [Hlen Hmatch]]].
  apply has_column_In in Hcol.
  set (g := fun r : list value =>
              (Frame.cell (columns policy_df) r "implementation_year",
               match Frame.cell (columns policy_df) r "implementation_year" with
               | VNum q => Some (q + (1 # 10))%Q
               | _ => None
               end,
               match Frame.cell (columns policy_df) r "policy_name" with
               | VStr s => (Py.take 35 s ++ "...")%string
               | _ => ""
               end)).
  exists (map g (rows shown)).
  unfold policy_markers, policies_table. rewrite Hshown. cbn [bind]. rewrite Hc.
  split; [|split; [|split]].
  - apply traverse_map. intros r Hr.
    destruct (Hmatch r Hr) as [_ Heq]. apply eq_int_true in Heq.
    destruct Heq as [q [Hq _]]. destruct (Htext r Hr) as [s Hs].
    unfold annotate, g. rewrite Hy, Hcol, Hq, Hs. reflexivity.
  - now rewrite length_map.
  - apply Forall2_map_self. intros r Hr.
    destruct (Hmatch r Hr) as [_ Heq]. apply eq_int_true in Heq.
    destruct Heq as [q [Hq Hqy]]. destruct (Htext r Hr) as [s Hs].
    exists q, s. unfold g. rewrite Hq, Hs. cbn [fst snd]. repeat split; auto.
    intros Hshort. now rewrite take_all.
  - unfold Frame.empty. rewrite Hc.
    destruct (columns policy_df) as [|c cs] eqn:Hcols; [discriminate Hy|].
    destruct (rows shown) as [|r rs]; [reflexivity|].
    rewrite Hcol, Hy. reflexivity.
Qed.

Lemma markers_when_named_witness :
  policy_year_df any_country accented_policies 2020 "X" = Returned (Some accented_policies) /\
  policy_markers any_country accented_policies 2020 "X" =
    Returned [(VNum (inject_Z 2020), Some (inject_Z 2020 + (1 # 10))%Q,
               accented_label)].
Proof.
  split; [reflexivity|].
  destruct (markers_when_named any_country accented_policies 2020 "X" _ eq_refl)
    as [marks [Hm _]].
  - repeat constructor; simpl; intuition discriminate.
  - simpl. intros [H|[H|[]]]; discriminate H.
  - simpl. now left.
  - intros r [<-|[]]. now exists accented_name.
  - rewrite Hm. assert (Heq : Returned marks =
                              Returned [(VNum (inject_Z 2020),
                                         Some (inject_Z 2020 + (1 # 10))%Q,
                                         accented_label)]).
    { rewrite <- Hm. reflexivity. }
    exact Heq.
Defined.

(* ================================================================== *)
(** * Further properties: the reshaper and the slider *)




Lemma replace_absent (old new s : string) :
  Py.contains old s = false -> Py.replace old new s = s.
Proof.
  unfold Py.replace. induction s as [|c s IH]; [reflexivity|].
  cbn [Py.contains Py.replace_from]. intros H.
  apply orb_false_iff in H. destruct H as [Hp Hc].
  rewrite Hp, (IH Hc). reflexivity.
Qed.

Lemma digits_not_garbled (s : string) :
  Py.all_digits s = true -> Py.contains garbled_two s = false.
Proof.
  induction s as [|c s IH]; [reflexivity|].
  cbn [Py.all_digits Py.contains]. intros H.
  apply andb_true_iff in H. destruct H as [Hc Hs].
  rewrite (IH Hs), orb_false_r.
  unfold garbled_two. cbn [map string_of_list_ascii String.prefix].
  destruct (Ascii.ascii_dec (ascii_of_nat 195) c) as [<-|Hne]; [|reflexivity].
  vm_compute in Hc. discriminate.
Qed.

(** X11.  The repair of line 76 leaves alone every label without the garbled
    bytes, in particular every digit-only label: the year columns of the
    table as loaded are still year columns afterwards, and the rows are
    untouched.  A label made of the garbled bytes alone becomes "2", a year
    column. *)
Theorem repair_keeps_year_columns :
  (forall c, Py.contains garbled_two c = false -> Py.replace garbled_two "2" c = c) /\
  (forall c, Py.isdigit c = true -> Py.replace garbled_two "2" c = c) /\
  (forall raw c, In c (filter Py.isdigit (columns raw)) ->
                 In c (year_cols (repair_columns raw))) /\
  (forall raw, rows (repair_columns raw) = rows raw /\
               List.length (columns (repair_columns raw)) = List.length (columns raw)) /\
  year_cols (repair_columns (mkDF ["Country"; garbled_two] [])) = ["2"].
Proof.
  assert (Hd : forall c, Py.isdigit c = true -> Py.replace garbled_two "2" c = c).
  { intros c Hc. apply replace_absent, digits_not_garbled.
    destruct c; [discriminate | exact Hc]. }
  split; [intros c; apply replace_absent|]. split; [exact Hd|]. split; [|split].
  - intros raw c Hc. apply filter_In in Hc. destruct Hc as [Hin Hdig].
    unfold year_cols, repair_columns. cbn [columns]. apply filter_In. split; [|exact Hdig].
    rewrite <- (Hd c Hdig). now apply in_map.
  - intros raw. unfold repair_columns. cbn [columns rows]. now rewrite length_map.
  - reflexivity.
Qed.

(* ------------------------------------------------------------------ *)
(** ** The slider bounds *)

Lemma int_from_shift (s : string) :
  forall acc,
    Py.int_from acc s = (acc * 10 ^ Z.of_nat (String.length s) + Py.int_from 0 s)%Z.
Proof.
  induction s as [|c s IH]; intros acc; cbn [Py.int_from String.length].
  - change (Z.of_nat 0) with 0%Z. rewrite Z.pow_0_r. lia.
  - rewrite IH, (IH (10 * 0 + _)%Z), Nat2Z.inj_succ, Z.pow_succ_r by lia. ring.
Qed.

Lemma digit_value (c : ascii) :
  Py.is_digit c = true -> (0 <= Z.of_nat (nat_of_ascii c) - 48 <= 9)%Z.
Proof.
  unfold Py.is_digit. rewrite andb_true_iff, !Nat.leb_le. lia.
Qed.

Lemma int_digits_range (s : string) :
  Py.all_digits s = true ->
  (0 <= Py.int_from 0 s < 10 ^ Z.of_nat (String.length s))%Z.
Proof.
  induction s as [|c s IH]; cbn [Py.all_digits Py.int_from String.length].
  - intros _. change (Z.of_nat 0) with 0%Z. rewrite Z.pow_0_r. lia.
  - intros H. apply andb_true_iff in H. destruct H as [Hc Hs].
    specialize (IH Hs). apply digit_value in Hc.
    rewrite int_from_shift, Nat2Z.inj_succ, Z.pow_succ_r by lia.
    assert (Hpow : (0 < 10 ^ Z.of_nat (String.length s))%Z) by (apply Z.pow_pos_nonneg; lia).
    nia.
Qed.

(** On digit texts of one length the order of texts is the order of the
    numbers they write. *)
Lemma str_lt_digits (s : string) :
  forall t,
    Py.all_digits s = true -> Py.all_digits t = true ->
    String.length s = String.length t ->
    if str_lt s t then (Py.int s < Py.int t)%Z else (Py.int t <= Py.int s)%Z.
Proof.
  unfold Py.int. induction s as [|c s IH]; intros t Hs Ht Hlen.
  - destruct t; [simpl; lia | discriminate].
  - destruct t as [|d t]; [discriminate|].
    cbn [Py.all_digits] in Hs, Ht. apply andb_true_iff in Hs, Ht.
    destruct Hs as [Hc Hs], Ht as [Hd Ht]. injection Hlen as Hlen.
    specialize (IH t Hs Ht Hlen).
    pose proof (int_digits_range s Hs) as Rs. pose proof (int_digits_range t Ht) as Rt.
    apply digit_value in Hc, Hd. rewrite <- Hlen in Rt.
    cbn [str_lt Py.int_from].
    rewrite (int_from_shift s), (int_from_shift t), <- Hlen.
    set (P := (10 ^ Z.of_nat (String.length s))%Z) in *.
    destruct (nat_of_ascii c <? nat_of_ascii d)%nat eqn:E1.
    + apply Nat.ltb_lt in E1. nia.
    + apply Nat.ltb_ge in E1.
      destruct (nat_of_ascii d <? nat_of_ascii c)%nat eqn:E2.
      * apply Nat.ltb_lt in E2. nia.
      * apply Nat.ltb_ge in E2.
        assert (nat_of_ascii c = nat_of_ascii d) by lia.
        destruct (str_lt s t); nia.
Qed.

Lemma min_from_spec (n : nat) (l : list string) :
  forall m,
    (forall x, In x (m :: l) -> Py.all_digits x = true /\ String.length x = n) ->
    In (min_from m l) (m :: l) /\
    forall x, In x (m :: l) -> (Py.int (min_from m l) <= Py.int x)%Z.
Proof.
  induction l as [|a l IH]; intros m Hall.
  - simpl. split; [now left|]. intros x [<-|[]]. lia.
  - cbn [min_from].
    destruct (Hall m (or_introl eq_refl)) as [Hm Lm].
    destruct (Hall a (or_intror (or_introl eq_refl))) as [Ha La].
    pose proof (str_lt_digits a m Ha Hm ltac:(congruence)) as Hcmp.
    destruct (str_lt a m).
    + destruct (IH a) as [Hin Hle].
      { intros x Hx. apply Hall. simpl in *. tauto. }
      split; [simpl in *; tauto|].
      intros x [<-|Hx]; [|now apply Hle].
      specialize (Hle a (or_introl eq_refl)). lia.
    + destruct (IH m) as [Hin Hle].
      { intros x Hx. apply Hall. simpl in *. tauto. }
      split; [simpl in *; tauto|].
      intros x [<-|[<-|Hx]].
      * apply Hle. now left.
      * specialize (Hle m (or_introl eq_refl)). lia.
      * apply Hle. now right.
Qed.

Lemma max_from_spec (n : nat) (l : list string) :
  forall m,
    (forall x, In x (m :: l) -> Py.all_digits x = true /\ String.length x = n) ->
    In (max_from m l) (m :: l) /\
    forall x, In x (m :: l) -> (Py.int x <= Py.int (max_from m l))%Z.
Proof.
  induction l as [|a l IH]; intros m Hall.
  - simpl. split; [now left|]. intros x [<-|[]]. lia.
  - cbn [max_from].
    destruct (Hall m (or_introl eq_refl)) as [Hm Lm].
    destruct (Hall a (or_intror (or_introl eq_refl))) as [Ha La].
    pose proof (str_lt_digits m a Hm Ha ltac:(congruence)) as Hcmp.
    destruct (str_lt m a).
    + destruct (IH a) as [Hin Hle].
      { intros x Hx. apply Hall. simpl in *. tauto. }
      split; [simpl in *; tauto|].
      intros x [<-|Hx]; [|now apply Hle].
      specialize (Hle a (or_introl eq_refl)). lia.
    + destruct (IH m) as [Hin Hle].
      { intros x Hx. apply Hall. simpl in *. tauto. }
      split; [simpl in *; tauto|].
      intros x [<-|[<-|Hx]].
      * apply Hle. now left.
      * specialize (Hle m (or_introl eq_refl)). lia.
      * apply Hle. now right.
Qed.

Lemma min_from_In (l : list string) : forall m, In (min_from m l) (m :: l).
Proof.
  induction l as [|a l IH]; intros m; cbn [min_from]; [now left|].
  destruct (str_lt a m).
  - right. apply IH.
  - destruct (IH m) as [H|H]; [now left | right; now right].
Qed.

Lemma max_from_In (l : list string) : forall m, In (max_from m l) (m :: l).
Proof.
  induction l as [|a l IH]; intros m; cbn [max_from]; [now left|].
  destruct (str_lt m a).
  - right. apply IH.
  - destruct (IH m) as [H|H]; [now left | right; now right].
Qed.

Lemma full_in_series_spec (isdigit : string -> bool) (int_of : string -> option Z)
      (to_numeric_str : string -> option Q) (df : DataFrame)
      (country sector : string) (p : LongRow) :
  In p (Full.series_spec isdigit int_of to_numeric_str df country sector) ->
  exists y r,
    In y (Full.year_cols isdigit df) /\ In r (rows df) /\
    Frame.cell (columns df) r "Country" = VStr country /\
    Frame.cell (columns df) r "Sector" = VStr sector /\
    int_of y = Some (Year p).
Proof.
  unfold Full.series_spec. rewrite in_flat_map. intros [y [Hy Hp]].
  apply in_flat_map in Hp. destruct Hp as [r [Hr Hp]].
  apply full_in_point_of in Hp. destruct Hp as [n [q [Hn [_ [Hc [Hs [_ [_ [_ ->]]]]]]]]].
  exists y, r. repeat split; auto.
Qed.

(** X12.  The slider bounds are the years of two of the year columns;
    computing them raises [ValueError] when there is no year column, or
    when [int] refuses the smallest or the largest label, and raises
    nothing else.  When the year labels are ASCII digit texts of one length, the
    bounds exist and enclose the year of every column, and so the year of
    every point of the series plotted.  With labels of different lengths
    the order of texts is not the order of years, and the lower bound can
    exceed the upper one. *)
Theorem slider_bounds_enclose
        (isdigit : string -> bool) (int_of : string -> option Z) (df : DataFrame) :
  (Full.year_cols isdigit df = [] ->
   Full.slider_bounds isdigit int_of df = Raised ValueError) /\
  (forall e, Full.slider_bounds isdigit int_of df = Raised e ->
             e = ValueError /\
             (Full.year_cols isdigit df = [] \/
              exists y, In y (Full.year_cols isdigit df) /\ int_of y = None)) /\
  (forall lo hi,
      Full.slider_bounds isdigit int_of df = Returned (lo, hi) ->
      exists a b, In a (Full.year_cols isdigit df) /\ In b (Full.year_cols isdigit df) /\
                  int_of a = Some lo /\ int_of b = Some hi) /\
  (Full.year_cols isdigit df <> [] ->
   (forall y, In y (Full.year_cols isdigit df) ->
              Py.isdigit y = true /\ int_of y = Some (Py.int y)) ->
   (forall y y', In y (Full.year_cols isdigit df) -> In y' (Full.year_cols isdigit df) ->
                 String.length y = String.length y') ->
   exists lo hi,
     Full.slider_bounds isdigit int_of df = Returned (lo, hi) /\
     (forall y, In y (Full.year_cols isdigit df) -> (lo <= Py.int y <= hi)%Z) /\
     (forall to_numeric_str country sector plot p,
         NoDup (columns df) ->
         Full.plot_df isdigit int_of to_numeric_str df country sector = Returned plot ->
         In p plot -> (lo <= Year p <= hi)%Z)) /\
  Full.slider_bounds sample_isdigit sample_int (mkDF ["999"; "1000"] [])
  = Returned (1000%Z, 999%Z) /\
  Full.slider_bounds sample_isdigit sample_int (mkDF ["2009"; superscript_two] [])
  = Raised ValueError.
Proof.
  split; [|split; [|split; [|split; [|split; reflexivity]]]].
  - intros Hnil. unfold Full.slider_bounds. now rewrite Hnil.
  - intros e. unfold Full.slider_bounds, py_min, py_max.
    destruct (Full.year_cols isdigit df) as [|m l] eqn:Hyc.
    + intros H; inversion H. split; [reflexivity | now left].
    + pose proof (min_from_In l m) as Hmin. pose proof (max_from_In l m) as Hmax.
      destruct (int_of (min_from m l)) as [a|] eqn:Ha.
      * destruct (int_of (max_from m l)) as [b|] eqn:Hb; [discriminate|].
        intros H; inversion H. split; [reflexivity|]. right.
        exists (max_from m l). split; [exact Hmax | exact Hb].
      * intros H; inversion H. split; [reflexivity|]. right.
        exists (min_from m l). split; [exact Hmin | exact Ha].
  - intros lo hi. unfold Full.slider_bounds, py_min, py_max.
    destruct (Full.year_cols isdigit df) as [|m l] eqn:Hyc; [discriminate|].
    pose proof (min_from_In l m) as Hmin. pose proof (max_from_In l m) as Hmax.
    destruct (int_of (min_from m l)) as [a|] eqn:Ha; [|discriminate].
    destruct (int_of (max_from m l)) as [b|] eqn:Hb; [|discriminate].
    intros H; inversion H; subst. exists (min_from m l), (max_from m l). auto.
  - intros Hne Hascii Hlen. unfold Full.slider_bounds, py_min, py_max.
    destruct (Full.year_cols isdigit df) as [|m l] eqn:Hyc; [contradiction|].
    assert (Hall : forall x, In x (m :: l) ->
                             Py.all_digits x = true /\ String.length x = String.length m).
    { intros x Hx. split.
      - destruct (Hascii x Hx) as [Hd _]. destruct x; [discriminate | exact Hd].
      - apply Hlen; [exact Hx | now left]. }
    destruct (min_from_spec _ l m Hall) as [Hmin_in Hmin].
    destruct (max_from_spec _ l m Hall) as [Hmax_in Hmax].
    rewrite (proj2 (Hascii _ Hmin_in)), (proj2 (Hascii _ Hmax_in)).
    exists (Py.int (min_from m l)), (Py.int (max_from m l)).
    split; [reflexivity|].
    assert (Hcols : forall y, In y (m :: l) ->
                              (Py.int (min_from m l) <= Py.int y <= Py.int (max_from m l))%Z).
    { intros y Hy. split; [now apply Hmin | now apply Hmax]. }
    split; [exact Hcols|].
    intros to_numeric_str country sector plot p _ Hplot Hp.
    apply full_plot_df_series_spec in Hplot. subst plot.
    assert (Hp' : In p (Full.series_spec isdigit int_of to_numeric_str df country sector)).
    { eapply Permutation_in; [symmetry; apply sort_values_perm | exact Hp]. }
    destruct (full_in_series_spec _ _ _ _ _ _ _ Hp') as [y [r [Hy [_ [_ [_ Hread]]]]]].
    rewrite Hyc in Hy. rewrite (proj2 (Hascii y Hy)) in Hread. inversion Hread.
    now apply Hcols.
Qed.

(* ================================================================== *)
(** * Further properties: the impact summary *)

Lemma filter_nothing {A : Type} (p : A -> bool) (l : list A) :
  (forall a, In a l -> p a = false) -> filter p l = [].
Proof.
  induction l as [|a l IH]; intros H; simpl; [reflexivity|].
  rewrite (H a (or_introl eq_refl)). apply IH. intros b Hb. apply H. now right.
Qed.

(** X15.  A policy year outside the series.  Past the last year, there is no
    mean after: its tile shows not-a-number, and so does the change when
    the mean before is positive.  At or before the first year, there is no
    mean before: its tile shows not-a-number and the change reads "N/A". *)
Theorem policy_year_outside_series (plot : list LongRow) (policy_year : Z) :
  ((forall r, In r plot -> (Year r < policy_year)%Z) ->
   after plot policy_year = None /\
   avg_after (impact_summary plot policy_year) = Number None /\
   (positive (before plot policy_year) = true ->
    change (impact_summary plot policy_year) = Number None)) /\
  ((forall r, In r plot -> (policy_year <= Year r)%Z) ->
   before plot policy_year = None /\
   avg_before (impact_summary plot policy_year) = Number None /\
   change (impact_summary plot policy_year) = Text "N/A").
Proof.
  split; intros Hall.
  - assert (Ha : after plot policy_year = None).
    { unfold after. rewrite filter_nothing; [reflexivity|].
      intros r Hr. specialize (Hall r Hr). rewrite Z.geb_leb. apply Z.leb_gt. lia. }
    unfold impact_summary. cbn [avg_after change]. rewrite Ha.
    split; [reflexivity|]. split; [reflexivity|].
    intros Hp. rewrite Hp. destruct (before plot policy_year); reflexivity.
  - assert (Hb : before plot policy_year = None).
    { unfold before. rewrite filter_nothing; [reflexivity|].
      intros r Hr. specialize (Hall r Hr). apply Z.ltb_ge. lia. }
    unfold impact_summary. cbn [avg_before change]. rewrite Hb.
    repeat split.
Qed.

(* ================================================================== *)
(** * Further properties: when the reshaper fails, and how much it returns *)






Lemma length_flat_map_bound {A B : Type} (f : A -> list B) (k : nat) (l : list A) :
  (forall a, (List.length (f a) <= k)%nat) ->
  (List.length (flat_map f l) <= k * List.length l)%nat.
Proof.
  intros Hf. induction l as [|a l IH]; simpl; [lia|].
  rewrite length_app. specialize (Hf a). lia.
Qed.

(** X19.  For a table with distinct labels, the series returned has at most
    one point for each year column and each row of the table, and every
    year in it is what [int] reads from the label of a year column. *)
Theorem series_size_and_years
        (isdigit : string -> bool) (int_of : string -> option Z)
        (to_numeric_str : string -> option Q)
        (raw : DataFrame) (country sector : string) (plot : list LongRow)
        (Hnd : NoDup (columns (repair_columns raw)))
        (Hret : Full.reshape isdigit int_of to_numeric_str raw country sector
                = Returned plot) :
  (List.length plot
   <= List.length (Full.year_cols isdigit (repair_columns raw)) * List.length (rows raw))%nat /\
  (forall p, In p plot ->
             exists y, In y (Full.year_cols isdigit (repair_columns raw)) /\
                       int_of y = Some (Year p)).
Proof.
  unfold Full.reshape in Hret. apply full_plot_df_series_spec in Hret. subst plot. split.
  - rewrite <- (Permutation_length (sort_values_perm _)). unfold Full.series_spec.
    rewrite Nat.mul_comm. apply length_flat_map_bound. intros y.
    replace (List.length (rows raw)) with (1 * List.length (rows (repair_columns raw)))%nat
      by (unfold repair_columns; cbn [rows]; lia).
    apply length_flat_map_bound. intros r. unfold Full.point_of.
    destruct (int_of y); [|simpl; lia].
    destruct (to_numeric to_numeric_str _); [|simpl; lia].
    match goal with |- context [if ?b then _ else _] => destruct b end; simpl; lia.
  - intros p Hp.
    assert (Hp' : In p (Full.series_spec isdigit int_of to_numeric_str
                                         (repair_columns raw) country sector)).
    { eapply Permutation_in; [symmetry; apply sort_values_perm | exact Hp]. }
    destruct (full_in_series_spec _ _ _ _ _ _ _ Hp') as [y [r [Hy [_ [_ [_ Hread]]]]]].
    exists y. auto.
Qed.

Lemma series_size_and_years_witness :
  Full.reshape sample_isdigit sample_int decimal_cell wide_fullwidth "X" "Energy"
  = Returned series_fullwidth /\
  (List.length series_fullwidth <= 2 * 1)%nat.
Proof.
  split; [reflexivity|].
  assert (Hnd : NoDup (columns (repair_columns wide_fullwidth))).
  { apply (NoDup_count_occ' string_dec). intros c Hc. vm_compute in Hc.
    repeat (destruct Hc as [<-|Hc]; [reflexivity|]). contradiction. }
  exact (proj1 (series_size_and_years sample_isdigit sample_int decimal_cell
                                      wide_fullwidth "X" "Energy" series_fullwidth
                                      Hnd eq_refl)).
Defined.
